(** * Amberol build scripts: a shallow embedding and its verified properties

    The development embeds the two build drivers of the repository,
    [build_cross_platform.py] (the orchestrator) and [build_cargo.py] (the
    cargo driver), as functions of an explicit host and file system, and
    proves the properties of their control flow.

    Modelling boundary.  The working directory is a finite tree of names;
    file contents, permissions and devices are not represented.  An external
    process is an oracle of the host: it receives the command line and the
    current tree, and answers with an exit status and the tree it leaves
    behind.  Everything the scripts print, spawn, remove or archive is
    recorded, in order, in a trace. *)

From Stdlib Require Import String Ascii List Bool ZArith Lia DecimalString.
Import ListNotations.
Open Scope string_scope.
Open Scope list_scope.

(** ** Strings *)

(** [str.lower()] on the ASCII names that [platform.system()] returns. *)
Definition lower_ascii (c : ascii) : ascii :=
  let n := nat_of_ascii c in
  if andb (Nat.leb 65 n) (Nat.leb n 90) then ascii_of_nat (n + 32) else c.

Fixpoint lower (s : string) : string :=
  match s with
  | EmptyString => EmptyString
  | String c s' => String (lower_ascii c) (lower s')
  end.

(** [sep.join(parts)] *)
Definition join (sep : string) (parts : list string) : string :=
  String.concat sep parts.

(** ** Paths and the working-directory tree *)

(** A relative [pathlib.Path] is the list of its parts; [Path(".")] has none. *)
Definition path := list string.

Definition parent (p : path) : path := removelast p.

(** [str(p)] for a relative path, with the POSIX separator. *)
Definition path_str (p : path) : string := join "/" p.

(** [p.relative_to(base)]: the parts of [p] after [base], [None] standing for
    the [ValueError] raised when [base] is not a prefix of [p]. *)
Fixpoint relative_to (p base : path) {struct base} : option path :=
  match base with
  | [] => Some p
  | b :: base' =>
      match p with
      | [] => None
      | x :: p' => if String.eqb x b then relative_to p' base' else None
      end
  end.

#[local] Unset Elimination Schemes.
Inductive node : Type :=
| File : node
| Dir : list (string * node) -> node.
#[local] Set Elimination Schemes.

(** The first entry of a directory listing that bears the given name. *)
Fixpoint entry (x : string) (es : list (string * node)) : option node :=
  match es with
  | [] => None
  | (y, n) :: es' => if String.eqb y x then Some n else entry x es'
  end.

Fixpoint lookup (p : path) (n : node) : option node :=
  match p with
  | [] => Some n
  | x :: p' =>
      match n with
      | File => None
      | Dir es =>
          match entry x es with
          | Some c => lookup p' c
          | None => None
          end
      end
  end.

(** [Path.exists()] *)
Definition path_exists (p : path) (fs : node) : bool :=
  match lookup p fs with Some _ => true | None => false end.

Definition drop_entry (x : string) (es : list (string * node)) :=
  filter (fun e => negb (String.eqb (fst e) x)) es.

(** Replace what the name [x] denotes by [c]; a new name goes last. *)
Fixpoint put_entry (x : string) (c : node) (es : list (string * node)) :=
  match es with
  | [] => [(x, c)]
  | (y, n) :: es' =>
      if String.eqb y x then (y, c) :: drop_entry x es'
      else (y, n) :: put_entry x c es'
  end.

(** The tree without the subtree at [p]. *)
Fixpoint remove (p : path) (n : node) : node :=
  match p with
  | [] => n
  | x :: p' =>
      match n with
      | File => File
      | Dir es =>
          match p' with
          | [] => Dir (drop_entry x es)
          | _ :: _ =>
              match entry x es with
              | Some c => Dir (put_entry x (remove p' c) es)
              | None => Dir es
              end
          end
      end
  end.

(** The tree with [c] placed at [p]; the parent of [p] is a directory of the
    tree at every use below. *)
Fixpoint place (p : path) (c : node) (n : node) : node :=
  match p with
  | [] => c
  | x :: p' =>
      match n with
      | File => File
      | Dir es =>
          match p' with
          | [] => Dir (put_entry x c es)
          | _ :: _ =>
              match entry x es with
              | Some d => Dir (put_entry x (place p' c d) es)
              | None => Dir es
              end
          end
      end
  end.

(** [os.walk(top)], top-down: one triple (directory, sub-directory names,
    file names) per directory, a directory before its sub-directories;
    nothing at all when [top] is not a directory. *)
Definition dirnames (es : list (string * node)) : list string :=
  map fst (filter (fun e => match snd e with Dir _ => true | File => false end) es).

Definition filenames (es : list (string * node)) : list string :=
  map fst (filter (fun e => match snd e with Dir _ => false | File => true end) es).

Fixpoint walk (root : path) (n : node) : list (path * list string * list string) :=
  match n with
  | File => []
  | Dir es =>
      (root, dirnames es, filenames es)
        :: flat_map (fun e => walk (root ++ [fst e]) (snd e)) es
  end.

(** ** Effects: outcomes, traces and the script monad *)

(** The exceptions the scripts can meet.  [sys.exit(c)] raises [SystemExit c],
    which no [except Exception] clause catches. *)
Inductive exn : Type :=
| SystemExit (code : Z)
| CalledProcessError (cmd : list string) (returncode : Z)
| OSError (what : string)
| ValueError.

Definition is_Exception (e : exn) : bool :=
  match e with SystemExit _ => false | _ => true end.

Inductive outcome (A : Type) : Type :=
| Ret (a : A)
| Raise (e : exn).
Arguments Ret {A} a.
Arguments Raise {A} e.

(** The exit code the interpreter ends with, as Python has it and before
    the operating system truncates it: 0 on normal return, the argument of
    [sys.exit], 1 after a traceback.  The codes 0 and 1 are left as they
    are by every operating system; for the others see [os_status]. *)
Definition exit_code {A} (r : outcome A) : Z :=
  match r with
  | Ret _ => 0
  | Raise (SystemExit c) => c
  | Raise _ => 1
  end%Z.

(** The status the operating system reports for a process that ends with
    the exit code [code], for a code in the range of a C [int]: its low
    eight bits on POSIX ([sys.exit(-9)] is reported as 247), its low 32
    bits on Windows. *)
Definition os_status (nt : bool) (code : Z) : Z :=
  if nt then (code mod 4294967296)%Z else (code mod 256)%Z.

Section Script.
(** [St] is the state the script acts on, [Ev] what it records. *)
Context {St Ev : Type}.

Definition M (A : Type) : Type := St -> outcome A * St * list Ev.

Definition ret {A} (a : A) : M A := fun s => (Ret a, s, []).

Definition bind {A B} (m : M A) (k : A -> M B) : M B := fun s =>
  match m s with
  | (Ret a, s1, t1) => let '(r, s2, t2) := k a s1 in (r, s2, t1 ++ t2)
  | (Raise e, s1, t1) => (Raise e, s1, t1)
  end.

Definition raise {A} (e : exn) : M A := fun s => (Raise e, s, []).

Definition emit (e : Ev) : M unit := fun s => (Ret tt, s, [e]).

Definition sys_exit {A} (c : Z) : M A := raise (SystemExit c).

(** [try: m  except <those e with handler e = Some _>: handler e] *)
Definition try_except {A} (m : M A) (handler : exn -> option (M A)) : M A :=
  fun s =>
    match m s with
    | (Ret a, s1, t1) => (Ret a, s1, t1)
    | (Raise e, s1, t1) =>
        match handler e with
        | Some h => let '(r, s2, t2) := h s1 in (r, s2, t1 ++ t2)
        | None => (Raise e, s1, t1)
        end
    end.

(** [for x in xs: body x] *)
Fixpoint for_each {A} (xs : list A) (body : A -> M unit) : M unit :=
  match xs with
  | [] => ret tt
  | x :: xs' => bind (body x) (fun _ => for_each xs' body)
  end.

Definition result_of {A} (x : outcome A * St * list Ev) : outcome A := fst (fst x).
Definition state_of {A} (x : outcome A * St * list Ev) : St := snd (fst x).
Definition trace_of {A} (x : outcome A * St * list Ev) : list Ev := snd x.
End Script.

(** The result of a script is not an exit with a code other than 1. *)
Definition exits_only_with_1 {A} (r : outcome A) : Prop :=
  match r with
  | Raise (SystemExit c) => c = 1%Z
  | _ => True
  end.

(** A script is tame for [P] when, from every state, it exits with no code
    but 1 and records only events that satisfy [P]. *)
Definition tame {St Ev A} (P : Ev -> bool) (m : @M St Ev A) : Prop :=
  forall s,
    exits_only_with_1 (result_of (m s)) /\ forallb P (trace_of (m s)) = true.

(** A run [x] that comes after the events [t]. *)
Definition after {St Ev A} (t : list Ev) (x : outcome A * St * list Ev)
  : outcome A * St * list Ev :=
  (result_of x, state_of x, t ++ trace_of x).

Declare Scope script_scope.
Delimit Scope script_scope with script.
Notation "x <- m ;; k" := (bind m (fun x => k))
  (at level 100, m at next level, right associativity) : script_scope.
Notation "m ;; k" := (bind m (fun _ => k))
  (at level 100, right associativity) : script_scope.
Open Scope script_scope.

(** The line feed of ["\n..."] literals. *)
Definition nl : string := String (ascii_of_nat 10) EmptyString.

(** * build_cross_platform.py *)
Module CrossPlatform.

(** What the orchestrator observes of its host. *)
Record Host : Type := {
  (** [platform.system()] *)
  system : string;
  (** [shutil.which(name)] *)
  which : string -> option string;
  (** [Path("C:/msys64").exists()] *)
  msys2 : bool;
  (** The process started by [subprocess.run(cmd, shell=...)] in the given
      working directory: its return code ([None] when it cannot be
      started) and the working directory it leaves. *)
  spawn : list string -> bool -> node -> option Z * node
}.

(** The namespace [argparse] hands to [main]. *)
Record Args : Type := {
  target : string;
  buildtype : string;
  profile : string;
  prefix : string;
  clean : bool;
  install : bool
}.

Inductive event : Type :=
| EvPrint (line : string)
(** the line ["Error running command: {e}"] for the [CalledProcessError]
    of [cmd] with [returncode] *)
| EvPrintError (cmd : list string) (returncode : Z)
(** a process started, with the working directory it found *)
| EvSpawn (cmd : list string) (shell : bool) (cwd : node)
| EvRmtree (p : path)
| EvMkdir (p : path)
| EvZipOpen (p : path)
| EvZipWrite (file : path) (arcname : string).

Definition Script := @M node event.

Definition print (line : string) : Script unit := emit (EvPrint line).

(** Truth value of [shutil.which(name)]: [None] and the empty string are
    false. *)
Definition resolvable (h : Host) (name : string) : bool :=
  match which h name with
  | Some p => negb (String.eqb p EmptyString)
  | None => false
  end.

(** [p.exists()] *)
Definition exists_ (p : path) : Script bool :=
  fun fs => (Ret (path_exists p fs), fs, []).

(** [shutil.rmtree(p)] *)
Definition rmtree (p : path) : Script unit := fun fs =>
  match lookup p fs with
  | Some (Dir _) => (Ret tt, remove p fs, [EvRmtree p])
  | Some File => (Raise (OSError "NotADirectoryError"), fs, [])
  | None => (Raise (OSError "FileNotFoundError"), fs, [])
  end.

(** [p.mkdir(exist_ok=True)] *)
Definition mkdir_exist_ok (p : path) : Script unit := fun fs =>
  match lookup p fs with
  | Some (Dir _) => (Ret tt, fs, [])
  | Some File => (Raise (OSError "FileExistsError"), fs, [])
  | None =>
      match lookup (parent p) fs with
      | Some (Dir _) => (Ret tt, place p (Dir []) fs, [EvMkdir p])
      | Some File => (Raise (OSError "NotADirectoryError"), fs, [])
      | None => (Raise (OSError "FileNotFoundError"), fs, [])
      end
  end.

(** [zipfile.ZipFile(p, 'w', ...)]: the archive file is created or
    truncated. *)
Definition zip_open (p : path) : Script unit := fun fs =>
  match lookup p fs with
  | Some (Dir _) => (Raise (OSError "IsADirectoryError"), fs, [])
  | _ =>
      match lookup (parent p) fs with
      | Some (Dir _) => (Ret tt, place p File fs, [EvZipOpen p])
      | Some File => (Raise (OSError "NotADirectoryError"), fs, [])
      | None => (Raise (OSError "FileNotFoundError"), fs, [])
      end
  end.

(** [zipf.write(file_path, arc_path)]: the entry is named by the parts of
    [arc_path] joined with ["/"]. *)
Definition zip_write (file_path arc_path : path) : Script unit :=
  emit (EvZipWrite file_path (path_str arc_path)).

(** [subprocess.run(cmd, shell=shell, check=check)] *)
Definition subprocess_run (h : Host) (cmd : list string) (shell check : bool)
  : Script Z := fun fs =>
  match spawn h cmd shell fs with
  | (None, fs') => (Raise (OSError "FileNotFoundError"), fs', [EvSpawn cmd shell fs])
  | (Some c, fs') =>
      if andb check (negb (Z.eqb c 0))
      then (Raise (CalledProcessError cmd c), fs', [EvSpawn cmd shell fs])
      else (Ret c, fs', [EvSpawn cmd shell fs])
  end.

Definition run_command (h : Host) (cmd : list string) (shell check : bool)
  : Script Z :=
  print ("Running: " ++ join " " cmd)%string ;;
  try_except
    (result <- subprocess_run h cmd shell check ;;
     ret result)
    (fun e =>
       match e with
       | CalledProcessError c rc =>
           Some (emit (EvPrintError c rc) ;; sys_exit 1)
       | _ => None
       end).

Definition detect_platform (h : Host) : string :=
  let system := lower (system h) in
  if String.eqb system "windows" then "windows"
  else if String.eqb system "linux" then "linux"
  else if String.eqb system "freebsd" then "freebsd"
  else "unknown".

(** The loop of [check_dependencies_linux] over a list of
    (executable, package) pairs: [missing] grows at its end. *)
Definition collect_missing (h : Host) (deps : list (string * string))
  : list (string * string) :=
  fold_left
    (fun missing d =>
       let '(cmd, package) := d in
       if negb (resolvable h cmd) then missing ++ [(cmd, package)] else missing)
    deps [].

Definition missing_line (d : string * string) : string :=
  let '(cmd, package) := d in ("  " ++ cmd ++ " (install " ++ package ++ ")")%string.

Definition check_dependencies (h : Host) (deps : list (string * string))
  : Script bool :=
  let missing := collect_missing h deps in
  match missing with
  | [] => ret true
  | _ :: _ =>
      print "Missing dependencies:" ;;
      for_each missing (fun d => print (missing_line d)) ;;
      print (nl ++ "Install missing dependencies and try again.")%string ;;
      ret false
  end.

Definition deps_linux : list (string * string) :=
  [("meson", "meson"); ("ninja", "ninja-build"); ("cargo", "rust")].

Definition check_dependencies_linux (h : Host) : Script bool :=
  check_dependencies h deps_linux.

Definition check_dependencies_windows (h : Host) : Script bool :=
  if negb (msys2 h) then
    print "MSYS2 not found at C:/msys64" ;;
    print "Please install MSYS2 from https://www.msys2.org/" ;;
    ret false
  else ret true.

Definition build_dir : path := ["_build_linux"].

Definition meson_args (args : Args) : list string :=
  ["meson"; "setup"; path_str build_dir;
   ("--buildtype=" ++ buildtype args)%string;
   ("--prefix=" ++ prefix args)%string]
  ++ (if String.eqb (profile args) "development"
      then ["-Dprofile=development"] else []).

Definition build_linux (h : Host) (args : Args) : Script bool :=
  print "Building for Linux..." ;;
  ok <- check_dependencies_linux h ;;
  if negb ok then ret false else
  present <- (if clean args then exists_ build_dir else ret false) ;;
  (if present then
     print "Cleaning previous build..." ;;
     rmtree build_dir
   else ret tt) ;;
  run_command h (meson_args args) false true ;;
  run_command h ["meson"; "compile"; "-C"; path_str build_dir] false true ;;
  (if install args then
     run_command h ["sudo"; "meson"; "install"; "-C"; path_str build_dir] false true ;;
     ret tt
   else ret tt) ;;
  print "Linux build completed successfully!" ;;
  ret true.

Definition ps_script : path := ["build_windows.ps1"].

Definition build_windows (h : Host) (args : Args) : Script bool :=
  print "Building for Windows..." ;;
  ok <- check_dependencies_windows h ;;
  if negb ok then ret false else
  found <- exists_ ps_script ;;
  if negb found then
    print "build_windows.ps1 not found!" ;;
    ret false
  else
  let ps_args :=
    ["powershell"; "-ExecutionPolicy"; "Bypass"; "-File"; path_str ps_script;
     "-Profile"; buildtype args]
    ++ (if clean args then ["-Clean"] else [])
    ++ (if install args then ["-Install"] else []) in
  run_command h ps_args true true ;;
  print "Windows build completed successfully!" ;;
  ret true.

Definition manifest : path := ["io.bassi.Amberol.json"].
Definition flatpak_dir : path := ["_flatpak_build"].

Definition create_flatpak (h : Host) (args : Args) : Script bool :=
  print "Creating Flatpak package..." ;;
  found <- exists_ manifest ;;
  if negb found then
    print "Flatpak manifest not found!" ;;
    ret false
  else
  present <- (if clean args then exists_ flatpak_dir else ret false) ;;
  (if present then rmtree flatpak_dir else ret tt) ;;
  run_command h
    ["flatpak-builder"; "--force-clean"; "--user"; "--install-deps-from=flathub";
     path_str flatpak_dir; path_str manifest] false true ;;
  print "Flatpak package created successfully!" ;;
  ret true.

Definition portable_dir : path := ["amberol-windows-portable"].
Definition zip_path : path := ["dist"; "amberol-windows-portable.zip"].
Definition iss_file : path := ["amberol-installer.iss"].

(** The body of the two [for] loops: one file of one [os.walk] triple. *)
Definition archive_file (root : path) (file : string) : Script unit :=
  let file_path := root ++ [file] in
  match relative_to file_path (parent portable_dir) with
  | Some arc_path => zip_write file_path arc_path
  | None => raise ValueError
  end.

(** Lines 166 to 178: the ZIP archive of the portable directory. *)
Definition write_archive : Script unit :=
  mkdir_exist_ok (parent zip_path) ;;
  print "Creating portable ZIP archive..." ;;
  zip_open zip_path ;;
  fun fs =>
    let top :=
      match lookup portable_dir fs with Some n => n | None => File end in
    for_each (walk portable_dir top)
      (fun '(root, dirs, files) =>
         for_each files (fun file => archive_file root file)) fs.

Definition package_windows (h : Host) (args : Args) : Script bool :=
  print "Packaging Windows distribution..." ;;
  found <- exists_ portable_dir ;;
  if negb found then
    print "Windows portable build not found!" ;;
    print "Run build with Windows target first." ;;
    ret false
  else
  write_archive ;;
  (match which h "iscc" with
   | Some inno_setup =>
       if negb (String.eqb inno_setup EmptyString) then
         print "Creating Windows installer..." ;;
         present <- exists_ iss_file ;;
         if present then
           run_command h [inno_setup; path_str iss_file] false true ;;
           ret tt
         else print "Installer script not found, skipping installer creation"
       else print "Inno Setup not found, skipping installer creation"
   | None => print "Inno Setup not found, skipping installer creation"
   end) ;;
  print "Windows packaging completed!" ;;
  ret true.

(** Lines 216 to 236 of [main]: the dispatch over the target, returning
    the accumulated [success]. *)
Definition dispatch (h : Host) (args : Args) (current_platform : string)
  : Script bool :=
  let success := true in
  success <-
    (if orb (String.eqb (target args) "linux") (String.eqb (target args) "all")
     then r <- build_linux h args ;; ret (andb success r)
     else ret success) ;;
  success <-
    (if orb (String.eqb (target args) "windows") (String.eqb (target args) "all")
     then
       if String.eqb current_platform "windows"
       then r <- build_windows h args ;; ret (andb success r)
       else
         print "Windows builds can only be created on Windows with MSYS2" ;;
         ret false
     else ret success) ;;
  success <-
    (if String.eqb (target args) "flatpak"
     then
       if String.eqb current_platform "linux"
       then r <- create_flatpak h args ;; ret (andb success r)
       else
         print "Flatpak packages can only be created on Linux" ;;
         ret false
     else ret success) ;;
  success <-
    (if String.eqb (target args) "package-windows"
     then r <- package_windows h args ;; ret (andb success r)
     else ret success) ;;
  ret success.

(** Lines 212 to 242 of [main]: the run once [parser.parse_args()] has
    accepted the command line and produced [args].  A command line that
    argparse refuses ends the process with its own status 2 before this
    point and is not a run of this function. *)
Definition main (h : Host) (args : Args) : Script unit :=
  let current_platform := detect_platform h in
  print ("Current platform: " ++ current_platform)%string ;;
  print ("Build target: " ++ target args)%string ;;
  success <- dispatch h args current_platform ;;
  if success then
    print (nl ++ "Build process completed successfully!")%string
  else
    print (nl ++ "Build process failed!")%string ;;
    sys_exit 1.

(** The pair's executable does not resolve on the search path. *)
Definition unresolved (h : Host) (d : string * string) : bool :=
  negb (resolvable h (fst d)).

(** ** What a trace shows *)

(** The windows branch of the dispatch off Windows: the mismatch line. *)
Definition mismatch_line : string :=
  "Windows builds can only be created on Windows with MSYS2".


(** The command lines of the processes started, in order. *)
Definition spawned (t : list event) : list (list string) :=
  flat_map (fun e => match e with EvSpawn cmd _ _ => [cmd] | _ => [] end) t.

(** The entry names written to the archive, in order. *)
Definition zip_names (t : list event) : list string :=
  flat_map (fun e => match e with EvZipWrite _ name => [name] | _ => [] end) t.

Definition printed (line : string) (t : list event) : Prop :=
  In (EvPrint line) t.

(** An event that only the flatpak branch of [main] produces: the first
    line of [create_flatpak], the mismatch line, or the builder process. *)
Definition is_flatpak_event (e : event) : bool :=
  match e with
  | EvPrint line =>
      orb (String.eqb line "Creating Flatpak package...")
          (String.eqb line "Flatpak packages can only be created on Linux")
  | EvSpawn ("flatpak-builder" :: _) _ _ => true
  | _ => false
  end.


(** Predicates on events for [tame]: any event, and any but the flatpak
    ones. *)
Definition any_event (e : event) : bool := true.
Definition not_flatpak (e : event) : bool := negb (is_flatpak_event e).

(** The command line of the configure step: [meson setup ...]. *)
Definition is_configure (cmd : list string) : bool :=
  match cmd with
  | "meson" :: "setup" :: _ => true
  | _ => false
  end.

Definition not_configure (e : event) : bool :=
  match e with
  | EvSpawn cmd _ _ => negb (is_configure cmd)
  | _ => true
  end.

(** Every configure process of the trace found the working directory [s0]. *)
Definition configure_sees (s0 : node) (e : event) : Prop :=
  match e with
  | EvSpawn cmd _ snap => is_configure cmd = true -> snap = s0
  | _ => True
  end.

(** What the two loops of [package_windows] write for one [os.walk]
    triple: one archive entry per file name. *)
Definition triple_writes (x : path * list string * list string) : list event :=
  let '(root, dirs, files) := x in
  map (fun file => EvZipWrite (root ++ [file]) (path_str (root ++ [file]))) files.

Definition not_zip_write (e : event) : bool :=
  match e with
  | EvZipWrite _ _ => false
  | _ => true
  end.

(** A regular file sits at the relative path [p] below a directory. *)
Inductive has_file : path -> node -> Prop :=
| has_file_here (x : string) (es : list (string * node)) :
    In (x, File) es -> has_file [x] (Dir es)
| has_file_below (x : string) (p : path) (c : node) (es : list (string * node)) :
    In (x, c) es -> has_file p c -> has_file (x :: p) (Dir es).

(** ** Named parts of the scripts *)

(** The command lines of the compile and install steps of [build_linux]. *)
Definition compile_cmd : list string :=
  ["meson"; "compile"; "-C"; path_str build_dir].

Definition install_cmd : list string :=
  ["sudo"; "meson"; "install"; "-C"; path_str build_dir].

(** Lines 94 to 103 of [build_linux]: configure, compile, optional install. *)
Definition build_steps (h : Host) (args : Args) : Script bool :=
  run_command h (meson_args args) false true ;;
  run_command h compile_cmd false true ;;
  (if install args then
     run_command h install_cmd false true ;;
     ret tt
   else ret tt) ;;
  print "Linux build completed successfully!" ;;
  ret true.

(** The tree in which [build_linux] starts the configure step. *)
Definition cleaned (args : Args) (fs : node) : node :=
  if andb (clean args) (path_exists build_dir fs)
  then remove build_dir fs else fs.

(** The command line [build_windows] hands to the shell. *)
Definition ps_command (args : Args) : list string :=
  ["powershell"; "-ExecutionPolicy"; "Bypass"; "-File"; path_str ps_script;
   "-Profile"; buildtype args]
  ++ (if clean args then ["-Clean"] else [])
  ++ (if install args then ["-Install"] else []).

(** The command line of [create_flatpak]. *)
Definition flatpak_cmd : list string :=
  ["flatpak-builder"; "--force-clean"; "--user"; "--install-deps-from=flathub";
   path_str flatpak_dir; path_str manifest].

(** Lines 148 to 154 of [create_flatpak]: the builder and the success. *)
Definition flatpak_steps (h : Host) : Script bool :=
  run_command h flatpak_cmd false true ;;
  print "Flatpak package created successfully!" ;;
  ret true.

(** The tree in which [create_flatpak] starts the builder. *)
Definition flatpak_cleaned (args : Args) (fs : node) : node :=
  if andb (clean args) (path_exists flatpak_dir fs)
  then remove flatpak_dir fs else fs.

(** What [run_command] records when it starts a process in the tree [s]. *)
Definition started (cmd : list string) (shell : bool) (s : node) : list event :=
  [EvPrint ("Running: " ++ join " " cmd)%string; EvSpawn cmd shell s].

Definition not_rmtree (e : event) : bool :=
  match e with
  | EvRmtree _ => false
  | _ => true
  end.

Definition not_spawn (e : event) : bool :=
  match e with
  | EvSpawn _ _ _ => false
  | _ => true
  end.

(** The directories a trace removes, in order. *)
Definition removed (t : list event) : list path :=
  flat_map (fun e => match e with EvRmtree p => [p] | _ => [] end) t.

(** A Windows host with MSYS2 on which every process returns the given
    code leaving the tree as it found it. *)
Definition windows_host (code : Z) : Host :=
  {| system := "Windows";
     which := fun _ => None;
     msys2 := true;
     spawn := fun _ _ fs => (Some code, fs) |}.

(** ** Fail-fast runs *)

(** A run aborts on failure when every process of its trace that returned a
    non-zero code ended the run: the result is [SystemExit(1)], the tree is
    the one that process left, and the trace stops with the process and the
    error line printed for it. *)
Definition aborts_on_failure (h : Host) {A}
           (x : outcome A * node * list event) : Prop :=
  forall cmd shell snap c fs',
    In (EvSpawn cmd shell snap) (trace_of x) ->
    spawn h cmd shell snap = (Some c, fs') ->
    c <> 0%Z ->
    result_of x = Raise (SystemExit 1)
    /\ state_of x = fs'
    /\ exists pre,
        trace_of x = pre ++ [EvSpawn cmd shell snap; EvPrintError cmd c].

Definition fail_fast (h : Host) {A} (m : Script A) : Prop :=
  forall fs, aborts_on_failure h (m fs).

(** ** Sample hosts and trees for evaluation *)

(** A Linux host on which every tool resolves and every process returns
    the given code leaving the tree as it found it. *)
Definition linux_host (code : Z) : Host :=
  {| system := "Linux";
     which := fun name => Some ("/usr/bin/" ++ name)%string;
     msys2 := false;
     spawn := fun _ _ fs => (Some code, fs) |}.

Definition args_for (t : string) (cl : bool) : Args :=
  {| target := t; buildtype := "release"; profile := "default";
     prefix := "/usr/local"; clean := cl; install := false |}.

Definition sample_tree : node :=
  Dir [("_build_linux", Dir [("sentinel", File)]);
       ("io.bassi.Amberol.json", File);
       ("amberol-installer.iss", File);
       ("amberol-windows-portable",
         Dir [("a.txt", File); ("sub", Dir [("b.txt", File)])])].

End CrossPlatform.

(** * build_cargo.py *)
Module Cargo.

(** What the cargo driver observes of its host; [W] is the state of the
    world outside the script (the files cargo and the copy act on). *)
Record Host (W : Type) : Type := {
  (** [os.name] *)
  os_name : string;
  (** [os.path.join(a, *p)] of the host's path flavour *)
  path_join : string -> list string -> string;
  (** The process of [subprocess.run(cmd, env=env)], [env] being the
      environment with [CARGO_HOME] set to the given value: its return code
      ([None] when it cannot be started) and the world it leaves. *)
  spawn : list string -> string -> W -> option Z * W;
  (** [shutil.copy2(src, dst)]: [Some what] when it raises. *)
  copy2 : string -> string -> W -> option string * W;
  (** [os.chmod(path, mode)]: [Some what] when it raises. *)
  chmod : string -> Z -> W -> option string * W
}.
Arguments os_name {W} _.
Arguments path_join {W} _ _ _.
Arguments spawn {W} _ _ _ _.
Arguments copy2 {W} _ _ _ _.
Arguments chmod {W} _ _ _ _.

Record Args : Type := {
  cargo_home : string;
  manifest_path : string;
  target_dir : string;
  profile : string;
  output : string;
  project_name : string
}.

Inductive event : Type :=
| EvPrint (line : string)
(** the line ["Failed to copy executable: {e}"] *)
| EvPrintCopyFailed (e : exn)
| EvSpawn (cmd : list string) (cargo_home : string)
| EvCopy (src dst : string)
| EvChmod (file : string) (mode : Z).

(** [str(n)] of an integer. *)
Definition str_int (n : Z) : string := NilZero.string_of_int (Z.to_int n).

Section Driver.
Context {W : Type} (h : Host W).

Definition Script := @M W event.

Definition print (line : string) : Script unit := emit (EvPrint line).

(** [subprocess.run(cmd, env=env).returncode] *)
Definition subprocess_run (cmd : list string) (home : string) : Script Z :=
  fun w =>
    match spawn h cmd home w with
    | (None, w') => (Raise (OSError "FileNotFoundError"), w', [EvSpawn cmd home])
    | (Some c, w') => (Ret c, w', [EvSpawn cmd home])
    end.

Definition shutil_copy2 (src dst : string) : Script unit := fun w =>
  match copy2 h src dst w with
  | (None, w') => (Ret tt, w', [EvCopy src dst])
  | (Some what, w') => (Raise (OSError what), w', [EvCopy src dst])
  end.

Definition os_chmod (file : string) (mode : Z) : Script unit := fun w =>
  match chmod h file mode w with
  | (None, w') => (Ret tt, w', [EvChmod file mode])
  | (Some what, w') => (Raise (OSError what), w', [EvChmod file mode])
  end.

(** Lines 27 to 31: the command before the profile is looked at. *)
Definition cargo_base (args : Args) : list string :=
  ["cargo"; "build";
   "--manifest-path"; manifest_path args;
   "--target-dir"; target_dir args].

Definition cargo_cmd (args : Args) : list string :=
  cargo_base args
  ++ (if String.eqb (profile args) "release" then ["--release"] else []).

(** Lines 22 to 59 of [main]: the run once [parser.parse_args()] has
    accepted the command line and produced [args]. *)
Definition main (args : Args) : Script unit :=
  print ("Running: " ++ join " " (cargo_cmd args))%string ;;
  returncode <- subprocess_run (cargo_cmd args) (cargo_home args) ;;
  if negb (Z.eqb returncode 0) then
    print ("Cargo build failed with exit code " ++ str_int returncode)%string ;;
    sys_exit returncode
  else
  let exe_suffix := if String.eqb (os_name h) "nt" then ".exe" else EmptyString in
  let src_exe :=
    path_join h (target_dir args)
      [profile args; (project_name args ++ exe_suffix)%string] in
  print ("Copying " ++ src_exe ++ " to " ++ output args)%string ;;
  try_except
    (shutil_copy2 src_exe (output args) ;;
     if negb (String.eqb (os_name h) "nt")
     then os_chmod (output args) 493
     else ret tt)
    (fun e =>
       if is_Exception e
       then Some (emit (EvPrintCopyFailed e) ;; sys_exit 1)
       else None) ;;
  print "Build completed successfully!".

End Driver.

(** The executable [main] copies: line 46. *)
Definition src_exe {W : Type} (h : Host W) (args : Args) : string :=
  path_join h (target_dir args)
    [profile args;
     (project_name args
        ++ (if String.eqb (os_name h) "nt" then ".exe" else EmptyString))%string].

(** The copies and the mode changes a trace attempts. *)
Definition copies (t : list event) : list (string * string) :=
  flat_map (fun e => match e with EvCopy s d => [(s, d)] | _ => [] end) t.

Definition chmods (t : list event) : list (string * Z) :=
  flat_map (fun e => match e with EvChmod f m => [(f, m)] | _ => [] end) t.

(** [os.path.join] of [posixpath]. *)
Definition ends_with_slash (s : string) : bool :=
  match get (String.length s - 1) s with
  | Some c => Ascii.eqb c "/"
  | None => false
  end.

Definition posix_join (a : string) (p : list string) : string :=
  fold_left
    (fun acc b =>
       if String.prefix "/" b then b
       else if orb (String.eqb acc EmptyString) (ends_with_slash acc) then (acc ++ b)%string
       else (acc ++ "/" ++ b)%string)
    p a.

(** A POSIX host whose cargo returns the given code and whose copy and
    chmod succeed; the world is the list of files written so far. *)
Definition posix_host (code : Z) : Host (list string) :=
  {| os_name := "posix";
     path_join := posix_join;
     spawn := fun _ _ w => (Some code, w);
     copy2 := fun _ dst w => (None, dst :: w);
     chmod := fun _ _ w => (None, w) |}.

(** A POSIX host whose cargo succeeds and whose copy raises. *)
Definition posix_host_copy_fails : Host (list string) :=
  {| os_name := "posix";
     path_join := posix_join;
     spawn := fun _ _ w => (Some 0%Z, w);
     copy2 := fun _ _ w => (Some "No such file or directory", w);
     chmod := fun _ _ w => (None, w) |}.

(** A Windows host: components are joined with a backslash, cargo returns
    the given code, the copy succeeds. *)
Definition nt_host (code : Z) : Host (list string) :=
  {| os_name := "nt";
     path_join := fun a p => String.concat (String (ascii_of_nat 92) EmptyString) (a :: p);
     spawn := fun _ _ w => (Some code, w);
     copy2 := fun _ dst w => (None, dst :: w);
     chmod := fun _ _ w => (None, w) |}.

Definition sample_args (prof : string) : Args :=
  {| cargo_home := "/tmp/cargo"; manifest_path := "Cargo.toml";
     target_dir := "target"; profile := prof;
     output := "out/amberol"; project_name := "amberol" |}.

End Cargo.

(** * Properties *)

Lemma flat_map_singleton {A B} (f : A -> B) (l : list A) :
  flat_map (fun x => [f x]) l = map f l.
Proof. induction l as [| a l IH]; cbn; [reflexivity | now rewrite IH]. Qed.

(** ** The script monad *)
Section ScriptFacts.
Context {St Ev : Type}.
Implicit Types (P : Ev -> bool).

Lemma tame_ret {A} P (a : A) : tame P (@ret St Ev A a).
Proof. intros s; split; reflexivity. Qed.

Lemma tame_emit P (e : Ev) : P e = true -> tame P (@emit St Ev e).
Proof. intros He s; split; cbn; [exact I | now rewrite He]. Qed.

Lemma tame_sys_exit_1 {A} P : tame P (@sys_exit St Ev A 1).
Proof. intros s; split; reflexivity. Qed.

Lemma tame_raise {A} P (e : exn) :
  is_Exception e = true -> tame P (@raise St Ev A e).
Proof. intros He s; split; [destruct e; cbn; easy | reflexivity]. Qed.

Lemma tame_bind {A B} P (m : @M St Ev A) (k : A -> M B) :
  tame P m -> (forall a, tame P (k a)) -> tame P (bind m k).
Proof.
  intros Hm Hk s. unfold bind.
  specialize (Hm s). destruct (m s) as [[[a | e] s1] t1]; cbn in *.
  - specialize (Hk a s1). destruct (k a s1) as [[r s2] t2]; cbn in *.
    rewrite forallb_app. destruct Hm as [_ ->], Hk as [Hr ->]. now split.
  - exact Hm.
Qed.

Lemma tame_try_except {A} P (m : @M St Ev A) handler :
  tame P m ->
  (forall e h, handler e = Some h -> tame P h) ->
  tame P (try_except m handler).
Proof.
  intros Hm Hh s. unfold try_except.
  specialize (Hm s). destruct (m s) as [[[a | e] s1] t1]; cbn in *.
  - exact Hm.
  - destruct (handler e) as [h |] eqn:E; [| exact Hm].
    specialize (Hh e h E s1). destruct (h s1) as [[r s2] t2]; cbn in *.
    rewrite forallb_app. destruct Hm as [_ ->], Hh as [Hr ->]. now split.
Qed.

Lemma tame_for_each {A} P (xs : list A) (body : A -> @M St Ev unit) :
  (forall x, tame P (body x)) -> tame P (for_each xs body).
Proof.
  intros Hb. induction xs as [| x xs IH]; cbn.
  - apply tame_ret.
  - apply tame_bind; [apply Hb | intros _; exact IH].
Qed.

(** A loop whose body only records events leaves the state alone and
    records them in order. *)
Lemma for_each_log {A} (xs : list A) (body : A -> @M St Ev unit)
      (g : A -> list Ev) :
  (forall x s, body x s = (Ret tt, s, g x)) ->
  forall s, for_each xs body s = (Ret tt, s, flat_map g xs).
Proof.
  intros Hb. induction xs as [| x xs IH]; intros s; cbn.
  - reflexivity.
  - unfold bind. rewrite Hb, IH. reflexivity.
Qed.

(** Sequencing with a script that returns: the trace is the concatenation. *)
Lemma bind_ret_run {A B} (m : @M St Ev A) (k : A -> M B) s a s1 t1 :
  m s = (Ret a, s1, t1) ->
  bind m k s =
    (result_of (k a s1), state_of (k a s1), t1 ++ trace_of (k a s1)).
Proof.
  intros E. unfold bind. rewrite E.
  destruct (k a s1) as [[r s2] t2]. reflexivity.
Qed.

(** Sequencing after the record of one event. *)
Lemma bind_emit_run {B} (e : Ev) (k : unit -> @M St Ev B) s :
  bind (emit e) k s =
    (result_of (k tt s), state_of (k tt s), e :: trace_of (k tt s)).
Proof. unfold bind, emit. destruct (k tt s) as [[r s2] t2]. reflexivity. Qed.

(** The trace of a sequence, whatever its left part does. *)
Lemma trace_bind {A B} (m : @M St Ev A) (k : A -> M B) s :
  trace_of (bind m k s) =
    trace_of (m s)
    ++ match result_of (m s) with
       | Ret a => trace_of (k a (state_of (m s)))
       | Raise _ => []
       end.
Proof.
  unfold bind. destruct (m s) as [[[a | e] s1] t1]; cbn.
  - now destruct (k a s1) as [[r s2] t2].
  - now rewrite app_nil_r.
Qed.

(** An exception raised on the left of a sequence skips its right. *)
Lemma bind_raise_run {A B} (m : @M St Ev A) (k : A -> M B) s e s1 t1 :
  m s = (Raise e, s1, t1) -> bind m k s = (Raise e, s1, t1).
Proof. intros E. unfold bind. now rewrite E. Qed.

(** The trace of a sequence starts with the trace of its left part. *)
Lemma bind_trace_prefix {A B} (m : @M St Ev A) (k : A -> M B) s :
  exists t, trace_of (bind m k s) = trace_of (m s) ++ t.
Proof.
  unfold bind. destruct (m s) as [[[a | e] s1] t1]; cbn.
  - destruct (k a s1) as [[r s2] t2]; cbn. now exists t2.
  - exists []. now rewrite app_nil_r.
Qed.

(** Sequencing with [ret] of the same value changes nothing. *)
Lemma bind_ret_same {A} (m : @M St Ev A) (f : A -> A) s :
  (forall a, f a = a) -> bind m (fun a => ret (f a)) s = m s.
Proof.
  intros Hf. unfold bind, ret.
  destruct (m s) as [[[a | e] s1] t1]; [| reflexivity].
  now rewrite Hf, app_nil_r.
Qed.

End ScriptFacts.

(** ** The working-directory tree *)
Section TreeFacts.
Implicit Types (x y : string) (es : list (string * node)) (n c : node).

Lemma drop_entry_cons x y n es :
  drop_entry x ((y, n) :: es) =
    if String.eqb y x then drop_entry x es else (y, n) :: drop_entry x es.
Proof. unfold drop_entry. cbn. now destruct (String.eqb y x). Qed.

Lemma entry_drop_same x es : entry x (drop_entry x es) = None.
Proof.
  induction es as [| [y n] es IH]; [reflexivity |].
  rewrite drop_entry_cons.
  destruct (String.eqb y x) eqn:E; [exact IH |].
  cbn [entry]. now rewrite E.
Qed.

Lemma entry_drop_other x y es :
  x <> y -> entry x (drop_entry y es) = entry x es.
Proof.
  intros Hxy. induction es as [| [z n] es IH]; [reflexivity |].
  rewrite drop_entry_cons. cbn [entry].
  destruct (String.eqb z y) eqn:E.
  - apply String.eqb_eq in E. subst z.
    destruct (String.eqb y x) eqn:F; [| exact IH].
    apply String.eqb_eq in F. congruence.
  - cbn [entry]. now rewrite IH.
Qed.

Lemma entry_put_other x y c es :
  x <> y -> entry x (put_entry y c es) = entry x es.
Proof.
  intros Hxy. induction es as [| [z n] es IH]; cbn [put_entry entry].
  - destruct (String.eqb y x) eqn:F; [| reflexivity].
    apply String.eqb_eq in F. congruence.
  - destruct (String.eqb z y) eqn:E; cbn [entry].
    + apply String.eqb_eq in E. subst z.
      destruct (String.eqb y x) eqn:F.
      * apply String.eqb_eq in F. congruence.
      * now apply entry_drop_other.
    + now rewrite IH.
Qed.

(** Once a name is removed from a directory, nothing is found under it. *)
Lemma lookup_remove_top x n : lookup [x] (remove [x] n) = None.
Proof. destruct n as [| es]; cbn; [reflexivity | now rewrite entry_drop_same]. Qed.

(** Placing something under one top-level name leaves the others alone. *)
Lemma lookup_place_other x y (p q : path) c n :
  x <> y -> lookup (x :: p) (place (y :: q) c n) = lookup (x :: p) n.
Proof.
  intros Hxy. destruct n as [| es]; cbn; [now destruct q |].
  destruct q as [| z q]; cbn.
  - now rewrite entry_put_other.
  - destruct (entry y es) as [d |]; cbn; [| reflexivity].
    now rewrite entry_put_other.
Qed.

(** Induction on trees: a directory has the property when what its
    entries denote has it. *)
Lemma node_induction (P : node -> Prop) :
  P File ->
  (forall es, Forall (fun e => P (snd e)) es -> P (Dir es)) ->
  forall n, P n.
Proof.
  intros HF HD. fix IH 1. intros [| es]; [exact HF |].
  apply HD. revert es. fix IHes 1. intros [| e es].
  - constructor.
  - constructor; [apply IH | apply IHes].
Qed.

Lemma in_filenames x es : In x (filenames es) <-> In (x, File) es.
Proof.
  unfold filenames. rewrite in_map_iff. split.
  - intros [[y n] [E H]]. cbn in E. subst y.
    apply filter_In in H. destruct H as [H F]. cbn in F.
    now destruct n.
  - intros H. exists (x, File). split; [reflexivity |].
    apply filter_In. now split.
Qed.

End TreeFacts.

(** ** build_cross_platform.py *)
Module CrossPlatformFacts.
Import CrossPlatform.

(** *** Evaluation on sample inputs *)

Example detect_platform_linux : detect_platform (linux_host 0) = "linux".
Proof. reflexivity. Qed.

Example detect_platform_other :
  detect_platform
    {| system := "Darwin"; which := fun _ => None; msys2 := false;
       spawn := fun _ _ fs => (None, fs) |} = "unknown".
Proof. reflexivity. Qed.

Example walk_portable_sample :
  walk portable_dir (Dir [("a.txt", File); ("sub", Dir [("b.txt", File)])])
  = [(["amberol-windows-portable"], ["sub"], ["a.txt"]);
     (["amberol-windows-portable"; "sub"], [], ["b.txt"])].
Proof. reflexivity. Qed.

Example relative_to_parent_sample :
  relative_to ["amberol-windows-portable"; "sub"; "b.txt"] (parent portable_dir)
  = Some ["amberol-windows-portable"; "sub"; "b.txt"].
Proof. reflexivity. Qed.

Example missing_two_tools :
  result_of
    (check_dependencies
       {| system := "Linux";
          which := fun name => if String.eqb name "ninja" then Some "/usr/bin/ninja" else None;
          msys2 := false; spawn := fun _ _ fs => (None, fs) |}
       deps_linux (Dir [])) = Ret false
  /\ trace_of
       (check_dependencies
          {| system := "Linux";
             which := fun name => if String.eqb name "ninja" then Some "/usr/bin/ninja" else None;
             msys2 := false; spawn := fun _ _ fs => (None, fs) |}
          deps_linux (Dir []))
     = [EvPrint "Missing dependencies:";
        EvPrint "  meson (install meson)";
        EvPrint "  cargo (install rust)";
        EvPrint (nl ++ "Install missing dependencies and try again.")%string].
Proof. split; reflexivity. Qed.

(** *** Dependency checker *)

Lemma collect_missing_filter h deps :
  collect_missing h deps = filter (unresolved h) deps.
Proof.
  unfold collect_missing.
  enough (G : forall acc,
             fold_left
               (fun missing d =>
                  let '(cmd, package) := d in
                  if negb (resolvable h cmd)
                  then missing ++ [(cmd, package)] else missing)
               deps acc = acc ++ filter (unresolved h) deps)
    by apply (G []).
  induction deps as [| [cmd package] deps IH]; intros acc; cbn.
  - now rewrite app_nil_r.
  - rewrite IH. unfold unresolved at 2. cbn.
    destruct (resolvable h cmd); cbn; [reflexivity |].
    now rewrite <- app_assoc.
Qed.

Lemma filter_unresolved_nil h deps :
  filter (unresolved h) deps = [] <->
  forallb (fun d => resolvable h (fst d)) deps = true.
Proof.
  induction deps as [| d deps IH]; cbn; [tauto |].
  unfold unresolved at 1. destruct (resolvable h (fst d)); cbn.
  - exact IH.
  - split; discriminate.
Qed.

(** What [check_dependencies] does, in full. *)
Lemma check_dependencies_run h deps fs :
  check_dependencies h deps fs =
    (Ret (forallb (fun d => resolvable h (fst d)) deps), fs,
     match filter (unresolved h) deps with
     | [] => []
     | missing =>
         EvPrint "Missing dependencies:"
           :: map (fun d => EvPrint (missing_line d)) missing
           ++ [EvPrint (nl ++ "Install missing dependencies and try again.")%string]
     end).
Proof.
  unfold check_dependencies. rewrite collect_missing_filter.
  pose proof (filter_unresolved_nil h deps) as Hnil.
  destruct (filter (unresolved h) deps) as [| d missing] eqn:E.
  - rewrite (proj1 Hnil eq_refl). reflexivity.
  - destruct (forallb _ deps) eqn:F; [discriminate (proj2 Hnil eq_refl) |].
    unfold bind, print, emit.
    rewrite (for_each_log (d :: missing) _ (fun d => [EvPrint (missing_line d)]))
      by reflexivity.
    cbn. now rewrite flat_map_singleton.
Qed.

(** C3: for every dependency list, every (executable, hint) pair is examined:
    the check returns false exactly when some pair does not resolve, true
    otherwise, it leaves the tree alone, and the lines it prints between its
    header and footer are those of all the unresolved pairs, in order; in
    particular every unresolved pair has its line with its install hint. *)
Theorem C3_check_dependencies_reports_all (h : Host) (deps : list (string * string))
        (fs : node) :
  let run := check_dependencies h deps fs in
  state_of run = fs
  /\ (result_of run = Ret false <->
      exists d, In d deps /\ resolvable h (fst d) = false)
  /\ (result_of run = Ret true <->
      forall d, In d deps -> resolvable h (fst d) = true)
  /\ (forall cmd package,
         In (cmd, package) deps -> resolvable h cmd = false ->
         printed ("  " ++ cmd ++ " (install " ++ package ++ ")")%string
                 (trace_of run))
  /\ (result_of run = Ret false ->
      trace_of run =
        EvPrint "Missing dependencies:"
          :: map (fun d => EvPrint (missing_line d)) (filter (unresolved h) deps)
          ++ [EvPrint (nl ++ "Install missing dependencies and try again.")%string])
  /\ (result_of run = Ret true -> trace_of run = []).
Proof.
  cbn zeta. rewrite check_dependencies_run. cbn [state_of result_of trace_of fst snd].
  pose proof (filter_unresolved_nil h deps) as Hnil.
  assert (Hall : forallb (fun d => resolvable h (fst d)) deps = true <->
                 forall d, In d deps -> resolvable h (fst d) = true)
    by apply forallb_forall.
  repeat split.
  - intros E. injection E as E.
    destruct (existsb (unresolved h) deps) eqn:X.
    + apply existsb_exists in X. destruct X as [d [Hd Hu]].
      exists d. split; [exact Hd |]. unfold unresolved in Hu.
      now destruct (resolvable h (fst d)).
    + exfalso. rewrite <- not_true_iff_false in E. apply E, Hall.
      intros d Hd. destruct (resolvable h (fst d)) eqn:R; [reflexivity |].
      rewrite <- not_true_iff_false in X. exfalso. apply X.
      apply existsb_exists. exists d. split; [exact Hd |].
      unfold unresolved. now rewrite R.
  - intros [d [Hd Hr]]. f_equal. apply not_true_iff_false. intros E.
    rewrite Hall in E. specialize (E d Hd). congruence.
  - intros E. injection E as E. now apply Hall.
  - intros E. f_equal. now apply Hall.
  - intros cmd package Hin Hr.
    assert (Hf : In (cmd, package) (filter (unresolved h) deps)).
    { apply filter_In. split; [exact Hin |]. unfold unresolved. cbn. now rewrite Hr. }
    destruct (filter (unresolved h) deps) as [| d missing]; [destruct Hf |].
    right. apply in_or_app. left.
    apply (in_map (fun d => EvPrint (missing_line d))) in Hf. exact Hf.
  - intros E. injection E as E.
    destruct (filter (unresolved h) deps) as [| d missing] eqn:F; [| reflexivity].
    rewrite (proj1 Hnil eq_refl) in E. discriminate.
  - intros E. injection E as E. now rewrite (proj2 Hnil E).
Qed.

(** *** Command runner *)

(** What [run_command] does when the process starts and returns [c]. *)
Lemma run_command_run h cmd shell check fs c fs' :
  spawn h cmd shell fs = (Some c, fs') ->
  run_command h cmd shell check fs =
    if andb check (negb (Z.eqb c 0))
    then (Raise (SystemExit 1), fs',
          [EvPrint ("Running: " ++ join " " cmd)%string; EvSpawn cmd shell fs;
           EvPrintError cmd c])
    else (Ret c, fs',
          [EvPrint ("Running: " ++ join " " cmd)%string; EvSpawn cmd shell fs]).
Proof.
  intros E. unfold run_command, bind, try_except, subprocess_run, print, emit.
  rewrite E. destruct (andb check (negb (Z.eqb c 0))); reflexivity.
Qed.

(** What [run_command] does when the process cannot be started. *)
Lemma run_command_not_started h cmd shell check fs fs' :
  spawn h cmd shell fs = (None, fs') ->
  run_command h cmd shell check fs =
    (Raise (OSError "FileNotFoundError"), fs',
     [EvPrint ("Running: " ++ join " " cmd)%string; EvSpawn cmd shell fs]).
Proof.
  intros E. unfold run_command, bind, try_except, subprocess_run, print, emit.
  rewrite E. reflexivity.
Qed.

Section Tame.
Variable P : event -> bool.

Lemma tame_print line : P (EvPrint line) = true -> tame P (print line).
Proof. apply tame_emit. Qed.

Lemma tame_exists p : tame P (exists_ p).
Proof. intros fs; split; reflexivity. Qed.

Lemma tame_rmtree p : P (EvRmtree p) = true -> tame P (rmtree p).
Proof.
  intros HP fs. unfold rmtree.
  destruct (lookup p fs) as [[| es] |]; split; cbn; try easy. now rewrite HP.
Qed.

Lemma tame_mkdir_exist_ok p : P (EvMkdir p) = true -> tame P (mkdir_exist_ok p).
Proof.
  intros HP fs. unfold mkdir_exist_ok.
  destruct (lookup p fs) as [[| es] |]; [split; easy | split; easy |].
  destruct (lookup (parent p) fs) as [[| es] |]; split; cbn; try easy.
  now rewrite HP.
Qed.

Lemma tame_zip_open p : P (EvZipOpen p) = true -> tame P (zip_open p).
Proof.
  intros HP fs. unfold zip_open.
  destruct (lookup p fs) as [[| es] |]; [| split; easy |];
    (destruct (lookup (parent p) fs) as [[| es'] |]; split; cbn; try easy;
     now rewrite HP).
Qed.

Lemma tame_run_command h cmd shell check :
  P (EvPrint ("Running: " ++ join " " cmd)%string) = true ->
  (forall fs, P (EvSpawn cmd shell fs) = true) ->
  (forall rc, P (EvPrintError cmd rc) = true) ->
  tame P (run_command h cmd shell check).
Proof.
  intros H1 H2 H3 fs.
  destruct (spawn h cmd shell fs) as [[c |] fs'] eqn:E.
  - rewrite (run_command_run _ _ _ _ _ _ _ E).
    destruct (andb check (negb (Z.eqb c 0)));
      (split; [easy | cbn [trace_of snd forallb]; now rewrite H1, H2, ?H3]).
  - rewrite (run_command_not_started _ _ _ _ _ _ E).
    split; [easy | cbn [trace_of snd forallb]; now rewrite H1, H2].
Qed.

Lemma tame_check_dependencies h deps :
  (forall line, String.prefix "Creating" line = false ->
                String.prefix "Flatpak" line = false ->
                P (EvPrint line) = true) ->
  tame P (check_dependencies h deps).
Proof.
  intros HP fs. rewrite check_dependencies_run. split; [exact I |].
  cbn [trace_of snd].
  destruct (filter (unresolved h) deps) as [| d missing]; [reflexivity |].
  cbn [forallb]. rewrite forallb_app. cbn [forallb].
  rewrite !HP by reflexivity. cbn.
  rewrite andb_true_r. apply andb_true_intro. split.
  - destruct d as [c p]. now apply HP.
  - apply forallb_forall. intros e He. apply in_map_iff in He.
    destruct He as [[c p] [<- _]]. now apply HP.
Qed.

End Tame.

Lemma not_flatpak_print line :
  String.prefix "Creating" line = false ->
  String.prefix "Flatpak" line = false ->
  not_flatpak (EvPrint line) = true.
Proof.
  intros H1 H2. unfold not_flatpak, is_flatpak_event.
  destruct (String.eqb line "Creating Flatpak package...") eqn:E1.
  { apply String.eqb_eq in E1. subst line. discriminate H1. }
  destruct (String.eqb line "Flatpak packages can only be created on Linux") eqn:E2.
  { apply String.eqb_eq in E2. subst line. discriminate H2. }
  reflexivity.
Qed.

(** One step of a tameness proof: the rule of the script's head, a case
    split on a tested value, or a side condition on an event. *)
Ltac tame_step HP :=
  match goal with
  | |- forall _, _ => intro
  | |- tame _ (ret _) => apply tame_ret
  | |- tame _ (sys_exit 1) => apply tame_sys_exit_1
  | |- tame _ (bind _ _) => apply tame_bind
  | |- tame _ (print _) => apply tame_print
  | |- tame _ (emit _) => apply tame_emit
  | |- tame _ (exists_ _) => apply tame_exists
  | |- tame _ (rmtree _) => apply tame_rmtree
  | |- tame _ (mkdir_exist_ok _) => apply tame_mkdir_exist_ok
  | |- tame _ (zip_open _) => apply tame_zip_open
  | |- tame _ (run_command _ _ _ _) => apply tame_run_command
  | |- tame _ (if ?b then _ else _) => destruct b
  | |- tame _ (match ?x with Some _ => _ | None => _ end) => destruct x
  | |- _ = true => solve [reflexivity | apply HP; reflexivity]
  end.

Lemma build_linux_tame (P : event -> bool) h args :
  (forall e, not_flatpak e = true -> P e = true) ->
  tame P (build_linux h args).
Proof.
  intros HP. unfold build_linux.
  apply tame_bind; [tame_step HP; tame_step HP |]. intros _.
  apply tame_bind.
  { apply tame_check_dependencies. intros line H1 H2.
    apply HP. now apply not_flatpak_print. }
  unfold meson_args.
  destruct (String.eqb (profile args) "development");
    repeat tame_step HP.
Qed.

Lemma build_windows_tame h args : tame any_event (build_windows h args).
Proof.
  assert (HP : forall e, not_flatpak e = true -> any_event e = true)
    by reflexivity.
  unfold build_windows, check_dependencies_windows. repeat tame_step HP.
Qed.

Lemma create_flatpak_tame h args : tame any_event (create_flatpak h args).
Proof.
  assert (HP : forall e, not_flatpak e = true -> any_event e = true)
    by reflexivity.
  unfold create_flatpak. repeat tame_step HP.
Qed.

Lemma write_archive_tame : tame any_event write_archive.
Proof.
  unfold write_archive.
  apply tame_bind; [now apply tame_mkdir_exist_ok | intros _].
  apply tame_bind; [now apply tame_print | intros _].
  apply tame_bind; [now apply tame_zip_open | intros _].
  intros fs. apply tame_for_each. intros [[root dirs] files].
  apply tame_for_each. intros file. unfold archive_file.
  destruct (relative_to _ _); [now apply tame_emit | now apply tame_raise].
Qed.

Lemma package_windows_tame h args : tame any_event (package_windows h args).
Proof.
  assert (HP : forall e, not_flatpak e = true -> any_event e = true)
    by reflexivity.
  unfold package_windows.
  repeat first [apply write_archive_tame | tame_step HP].
Qed.

Lemma dispatch_tame h args p : tame any_event (dispatch h args p).
Proof.
  assert (HP : forall e, not_flatpak e = true -> any_event e = true)
    by reflexivity.
  unfold dispatch.
  repeat first
    [ apply build_linux_tame; exact HP
    | apply build_windows_tame
    | apply create_flatpak_tame
    | apply package_windows_tame
    | tame_step HP ].
Qed.

Lemma main_tame h args : tame any_event (main h args).
Proof.
  assert (HP : forall e, not_flatpak e = true -> any_event e = true)
    by reflexivity.
  unfold main. repeat first [apply dispatch_tame | tame_step HP].
Qed.

(** Once the command line is parsed, whatever happens in the run of
    [main] it ends with exit code 0 or 1. *)
Lemma main_exit_code_0_or_1 h args fs :
  exit_code (result_of (main h args fs)) = 0%Z
  \/ exit_code (result_of (main h args fs)) = 1%Z.
Proof.
  destruct (main_tame h args fs) as [H _].
  destruct (result_of (main h args fs)) as [u | [c | | |]]; cbn in *; auto.
Qed.

(** *** Fail-fast: a failed process ends the run *)

(** A script that starts no process aborts on failure vacuously. *)
Lemma fail_fast_quiet h {A} (m : Script A) : tame not_spawn m -> fail_fast h m.
Proof.
  intros Hm fs cmd shell snap c fs' Hin _ _. exfalso.
  destruct (Hm fs) as [_ H]. rewrite forallb_forall in H.
  specialize (H _ Hin). discriminate H.
Qed.

(** The one process in the trace of [run_command] is the one it starts. *)
Lemma run_command_spawn_is h cmd shell check fs cmd' shell' snap :
  In (EvSpawn cmd' shell' snap) (trace_of (run_command h cmd shell check fs)) ->
  cmd' = cmd /\ shell' = shell /\ snap = fs.
Proof.
  intros Hin.
  destruct (spawn h cmd shell fs) as [[c0 |] s1] eqn:E.
  - rewrite (run_command_run _ _ _ _ _ _ _ E) in Hin.
    destruct (andb check (negb (Z.eqb c0 0))); cbn [trace_of snd In] in Hin.
    + destruct Hin as [Hin | [Hin | [Hin | []]]]; try discriminate Hin.
      now injection Hin as <- <- <-.
    + destruct Hin as [Hin | [Hin | []]]; try discriminate Hin.
      now injection Hin as <- <- <-.
  - rewrite (run_command_not_started _ _ _ _ _ _ E) in Hin.
    cbn [trace_of snd In] in Hin.
    destruct Hin as [Hin | [Hin | []]]; try discriminate Hin.
    now injection Hin as <- <- <-.
Qed.

Lemma fail_fast_run_command h cmd shell :
  fail_fast h (run_command h cmd shell true).
Proof.
  intros fs cmd' shell' snap c fs' Hin Hsp Hc.
  destruct (run_command_spawn_is _ _ _ _ _ _ _ _ Hin) as [-> [-> ->]].
  rewrite (run_command_run _ _ _ _ _ _ _ Hsp). cbn [andb].
  apply Z.eqb_neq in Hc. rewrite Hc. cbn [negb].
  repeat split.
  exists [EvPrint ("Running: " ++ join " " cmd)%string]. reflexivity.
Qed.

(** In a sequence, a failure of the left part skips the right part, and a
    failure in the right part ends the whole. *)
Lemma fail_fast_bind h {A B} (m : Script A) (k : A -> Script B) :
  fail_fast h m -> (forall a, fail_fast h (k a)) -> fail_fast h (bind m k).
Proof.
  intros Hm Hk fs cmd shell snap c fs' Hin Hsp Hc.
  specialize (Hm fs cmd shell snap c fs'). unfold bind in *.
  destruct (m fs) as [[[a | e] s1] t1]; cbn [result_of state_of trace_of fst snd] in *.
  - specialize (Hk a s1 cmd shell snap c fs').
    destruct (k a s1) as [[r s2] t2]; cbn [result_of state_of trace_of fst snd] in *.
    apply in_app_or in Hin. destruct Hin as [Hin | Hin].
    + destruct (Hm Hin Hsp Hc) as [H _]. discriminate H.
    + destruct (Hk Hin Hsp Hc) as [Hr [Hs [pre Ht]]].
      repeat split; try assumption.
      exists (t1 ++ pre). now rewrite Ht, app_assoc.
  - destruct (Hm Hin Hsp Hc) as [Hr [Hs Ht]]. injection Hr as ->.
    repeat split; assumption.
Qed.

(** One step of a fail-fast proof: the rule of the script's head, a case
    split on a tested value, or a part that starts no process. *)
Ltac fail_fast_step :=
  match goal with
  | |- forall _, _ => intro
  | |- fail_fast _ (bind _ _) => apply fail_fast_bind
  | |- fail_fast _ (run_command _ _ _ true) => apply fail_fast_run_command
  | |- fail_fast _ (if ?b then _ else _) => destruct b
  | |- fail_fast _ (match ?x with Some _ => _ | None => _ end) => destruct x
  | |- fail_fast _ _ =>
      apply fail_fast_quiet;
      let HP := fresh "HP" in
      assert (HP : forall e, not_spawn e = true -> not_spawn e = true) by auto;
      solve [repeat tame_step HP]
  end.

Lemma write_archive_starts_nothing : tame not_spawn write_archive.
Proof.
  unfold write_archive.
  apply tame_bind; [now apply tame_mkdir_exist_ok | intros _].
  apply tame_bind; [now apply tame_print | intros _].
  apply tame_bind; [now apply tame_zip_open | intros _].
  intros fs. apply tame_for_each. intros [[root dirs] files].
  apply tame_for_each. intros file. unfold archive_file.
  destruct (relative_to _ _); [now apply tame_emit | now apply tame_raise].
Qed.

Lemma build_linux_fail_fast h args : fail_fast h (build_linux h args).
Proof.
  unfold build_linux.
  apply fail_fast_bind; [fail_fast_step | intros _].
  apply fail_fast_bind.
  { apply fail_fast_quiet. apply tame_check_dependencies. reflexivity. }
  repeat fail_fast_step.
Qed.

Lemma build_windows_fail_fast h args : fail_fast h (build_windows h args).
Proof.
  unfold build_windows, check_dependencies_windows. repeat fail_fast_step.
Qed.

Lemma create_flatpak_fail_fast h args : fail_fast h (create_flatpak h args).
Proof. unfold create_flatpak. repeat fail_fast_step. Qed.

Lemma package_windows_fail_fast h args : fail_fast h (package_windows h args).
Proof.
  unfold package_windows.
  repeat first
    [ apply fail_fast_quiet; apply write_archive_starts_nothing
    | fail_fast_step ].
Qed.

Lemma dispatch_fail_fast h args p : fail_fast h (dispatch h args p).
Proof.
  unfold dispatch.
  repeat first
    [ apply build_linux_fail_fast
    | apply build_windows_fail_fast
    | apply create_flatpak_fail_fast
    | apply package_windows_fail_fast
    | fail_fast_step ].
Qed.

Lemma main_fail_fast h args : fail_fast h (main h args).
Proof.
  unfold main. repeat first [apply dispatch_fail_fast | fail_fast_step].
Qed.

(** C1, as the code has it: in a run of [main], a process that returns a
    non-zero code [c] ends the whole run at once.  The error line for it is
    the last thing the run does, the tree is the one the process left,
    [main] ends with [SystemExit(1)], and the status left to the operating
    system is 1 whatever [c] was: the code of the process is not
    propagated.  This is what [run_command] does under [check=True], which
    every call of the orchestrator uses. *)
Theorem C1_failed_process_aborts_run_with_1 (h : Host) (args : Args) (fs : node)
        (cmd : list string) (shell : bool) (snap fs' : node) (c : Z) :
  In (EvSpawn cmd shell snap) (trace_of (main h args fs)) ->
  spawn h cmd shell snap = (Some c, fs') ->
  c <> 0%Z ->
  result_of (main h args fs) = Raise (SystemExit 1)
  /\ exit_code (result_of (main h args fs)) = 1%Z
  /\ (forall nt, os_status nt (exit_code (result_of (main h args fs))) = 1%Z)
  /\ state_of (main h args fs) = fs'
  /\ (exists pre,
         trace_of (main h args fs)
         = pre ++ [EvSpawn cmd shell snap; EvPrintError cmd c])
  /\ run_command h cmd shell true snap
     = (Raise (SystemExit 1), fs',
        [EvPrint ("Running: " ++ join " " cmd)%string; EvSpawn cmd shell snap;
         EvPrintError cmd c]).
Proof.
  intros Hin Hsp Hc.
  destruct (main_fail_fast h args fs cmd shell snap c fs' Hin Hsp Hc)
    as [Hr [Hs Ht]].
  rewrite Hr. repeat split; try assumption.
  - intros [|]; reflexivity.
  - rewrite (run_command_run _ _ _ _ _ _ _ Hsp).
    apply Z.eqb_neq in Hc. now rewrite Hc.
Qed.

(** The configure step of a Linux build returns 2: the run ends there with
    status 1. *)
Lemma C1_failed_process_aborts_run_with_1_witness :
  result_of (main (linux_host 2) (args_for "linux" false) sample_tree)
  = Raise (SystemExit 1)
  /\ exit_code
       (result_of (main (linux_host 2) (args_for "linux" false) sample_tree))
     = 1%Z.
Proof.
  pose proof
    (C1_failed_process_aborts_run_with_1 (linux_host 2) (args_for "linux" false)
       sample_tree (meson_args (args_for "linux" false)) false sample_tree
       sample_tree 2
       ltac:(vm_compute; do 4 right; left; reflexivity) eq_refl
       ltac:(discriminate)) as H.
  exact (conj (proj1 H) (proj1 (proj2 H))).
Defined.

(** C1 as stated fails: the configure process returns 2 under [check=True],
    and the orchestrator's status is 1, not 2. *)
Lemma C1_exit_code_not_propagated :
  let h := linux_host 2 in
  let args := args_for "linux" false in
  spawn h (meson_args args) false sample_tree = (Some 2%Z, sample_tree)
  /\ exit_code (result_of (main h args sample_tree)) = 1%Z
  /\ exit_code (result_of (main h args sample_tree)) <> 2%Z.
Proof. vm_compute. repeat split; discriminate. Qed.

(** *** Target dispatch *)

(** C4: with target [windows] on a host that is not detected as windows,
    the run prints the platform-mismatch line and the failure banner and
    exits with status 1; the tree is untouched and no process is started. *)
Theorem C4_windows_target_off_windows (h : Host) (args : Args) (fs : node) :
  target args = "windows" ->
  detect_platform h <> "windows" ->
  main h args fs =
    (Raise (SystemExit 1), fs,
     [EvPrint ("Current platform: " ++ detect_platform h)%string;
      EvPrint "Build target: windows";
      EvPrint mismatch_line;
      EvPrint (nl ++ "Build process failed!")%string])
  /\ spawned (trace_of (main h args fs)) = []
  /\ exit_code (result_of (main h args fs)) = 1%Z.
Proof.
  intros Ht Hp. apply String.eqb_neq in Hp.
  assert (E : main h args fs =
    (Raise (SystemExit 1), fs,
     [EvPrint ("Current platform: " ++ detect_platform h)%string;
      EvPrint "Build target: windows";
      EvPrint mismatch_line;
      EvPrint (nl ++ "Build process failed!")%string])).
  { unfold main, dispatch. rewrite Ht, Hp.
    unfold bind, print, emit, ret, sys_exit, raise. reflexivity. }
  rewrite E. repeat split.
Qed.

Lemma C4_windows_target_off_windows_witness :
  spawned (trace_of (main (linux_host 0) (args_for "windows" true) sample_tree)) = [].
Proof.
  exact (proj1 (proj2
    (C4_windows_target_off_windows (linux_host 0) (args_for "windows" true)
       sample_tree eq_refl ltac:(discriminate)))).
Defined.

Lemma build_linux_trace_head h args fs :
  exists t, trace_of (build_linux h args fs) = EvPrint "Building for Linux..." :: t.
Proof.
  unfold build_linux, print. rewrite bind_emit_run. cbn. eauto.
Qed.

(** C9: whatever the detected platform [p] is, target [linux] runs exactly
    the native pipeline, target [all] starts with the whole native pipeline,
    and target [package-windows] runs exactly the distribution packager; the
    same holds of [main], which dispatches on [detect_platform]. *)
Theorem C9_platform_gates_neither_linux_nor_package_windows
        (h : Host) (args : Args) (p : string) (fs : node) :
  (target args = "linux" ->
   dispatch h args p fs = build_linux h args fs)
  /\ (target args = "all" ->
      exists t, trace_of (dispatch h args p fs)
                = trace_of (build_linux h args fs) ++ t)
  /\ (target args = "package-windows" ->
      dispatch h args p fs = package_windows h args fs)
  /\ (target args = "linux" \/ target args = "all" ->
      printed "Building for Linux..." (trace_of (main h args fs)))
  /\ (target args = "package-windows" ->
      printed "Packaging Windows distribution..." (trace_of (main h args fs))).
Proof.
  assert (Hl : target args = "linux" ->
               forall q, dispatch h args q fs = build_linux h args fs).
  { intros Ht q. unfold dispatch. rewrite Ht. cbn [String.eqb Ascii.eqb Bool.eqb orb].
    unfold bind, ret.
    destruct (build_linux h args fs) as [[[r | e] s1] t1]; cbn;
      now rewrite ?app_nil_r. }
  assert (Ha : target args = "all" ->
               forall q, exists t, trace_of (dispatch h args q fs)
                                   = trace_of (build_linux h args fs) ++ t).
  { intros Ht q. unfold dispatch. rewrite Ht. cbn [String.eqb Ascii.eqb Bool.eqb orb].
    cbn zeta.
    match goal with
    | |- context [trace_of (bind (bind ?m ?k0) ?k1 fs)] =>
        destruct (bind_trace_prefix (bind m k0) k1 fs) as [t1 E1];
        destruct (bind_trace_prefix m k0 fs) as [t0 E0]
    end.
    rewrite E1, E0. exists (t0 ++ t1). now rewrite app_assoc. }
  assert (Hp : target args = "package-windows" ->
               forall q, dispatch h args q fs = package_windows h args fs).
  { intros Ht q. unfold dispatch. rewrite Ht. cbn [String.eqb Ascii.eqb Bool.eqb orb].
    unfold bind, ret.
    destruct (package_windows h args fs) as [[[r | e] s1] t1]; cbn;
      now rewrite ?app_nil_r. }
  assert (Hb : forall q, target args = "linux" \/ target args = "all" ->
               exists t, trace_of (dispatch h args q fs)
                         = EvPrint "Building for Linux..." :: t).
  { intros q Ht.
    assert (exists t, trace_of (dispatch h args q fs)
                      = trace_of (build_linux h args fs) ++ t) as [t Et].
    { destruct Ht as [Ht | Ht]; [| now apply Ha].
      exists []. now rewrite app_nil_r, Hl. }
    rewrite Et. destruct (build_linux_trace_head h args fs) as [t' ->].
    cbn. eauto. }
  repeat split.
  - intros Ht. now apply Hl.
  - intros Ht. now apply Ha.
  - intros Ht. now apply Hp.
  - intros Ht. destruct (Hb (detect_platform h) Ht) as [t Et].
    unfold printed, main.
    unfold print. rewrite !bind_emit_run. cbn [trace_of snd].
    match goal with
    | |- context [trace_of (bind ?m ?k fs)] =>
        destruct (bind_trace_prefix m k fs) as [t' Et']
    end.
    rewrite Et', Et. cbn. auto.
  - intros Ht. unfold printed, main.
    unfold print. rewrite !bind_emit_run. cbn [trace_of snd].
    match goal with
    | |- context [trace_of (bind ?m ?k fs)] =>
        destruct (bind_trace_prefix m k fs) as [t' Et']
    end.
    rewrite Et', (Hp Ht). unfold package_windows.
    match goal with
    | |- context [trace_of (bind ?m ?k fs)] =>
        destruct (bind_trace_prefix m k fs) as [t'' Et'']
    end.
    rewrite Et''. cbn. auto.
Qed.






(** C6: when the portable-build directory does not exist, the packager
    prints that the portable build is missing and that the Windows target
    is to be built first, and returns false; the tree is untouched, nothing
    is written to an archive and no process is started. *)
Theorem C6_package_without_portable_dir (h : Host) (args : Args) (fs : node) :
  path_exists portable_dir fs = false ->
  package_windows h args fs =
    (Ret false, fs,
     [EvPrint "Packaging Windows distribution...";
      EvPrint "Windows portable build not found!";
      EvPrint "Run build with Windows target first."])
  /\ zip_names (trace_of (package_windows h args fs)) = []
  /\ spawned (trace_of (package_windows h args fs)) = []
  /\ state_of (package_windows h args fs) = fs.
Proof.
  intros H.
  assert (E : package_windows h args fs =
    (Ret false, fs,
     [EvPrint "Packaging Windows distribution...";
      EvPrint "Windows portable build not found!";
      EvPrint "Run build with Windows target first."])).
  { unfold package_windows, bind, print, emit, exists_, ret.
    rewrite H. reflexivity. }
  rewrite E. repeat split.
Qed.

Lemma C6_package_without_portable_dir_witness :
  result_of
    (package_windows (linux_host 0) (args_for "package-windows" false) (Dir []))
  = Ret false.
Proof.
  exact (f_equal result_of (proj1
    (C6_package_without_portable_dir (linux_host 0)
       (args_for "package-windows" false) (Dir []) eq_refl))).
Defined.

(** *** Native pipeline *)

Lemma not_configure_sees s0 e : not_configure e = true -> configure_sees s0 e.
Proof.
  destruct e as [l | c rc | cmd sh snap | p | p | p | f a]; cbn; try easy.
  intros H E. rewrite E in H. discriminate.
Qed.

Lemma tame_not_configure_sees {A} (m : Script A) s0 fs :
  tame not_configure m -> Forall (configure_sees s0) (trace_of (m fs)).
Proof.
  intros Hm. destruct (Hm fs) as [_ H].
  apply Forall_forall. intros e He. apply not_configure_sees.
  rewrite forallb_forall in H. now apply H.
Qed.

Lemma clean_step_run fs :
  (print "Cleaning previous build..." ;; rmtree build_dir) fs =
    match lookup build_dir fs with
    | Some (Dir _) =>
        (Ret tt, remove build_dir fs,
         [EvPrint "Cleaning previous build..."; EvRmtree build_dir])
    | Some File =>
        (Raise (OSError "NotADirectoryError"), fs,
         [EvPrint "Cleaning previous build..."])
    | None =>
        (Raise (OSError "FileNotFoundError"), fs,
         [EvPrint "Cleaning previous build..."])
    end.
Proof.
  unfold bind, print, emit, rmtree.
  destruct (lookup build_dir fs) as [[| es] |]; reflexivity.
Qed.

Lemma run_command_trace_head h cmd shell check fs :
  exists t,
    trace_of (run_command h cmd shell check fs) =
      EvPrint ("Running: " ++ join " " cmd)%string :: EvSpawn cmd shell fs :: t.
Proof.
  destruct (spawn h cmd shell fs) as [[c |] fs'] eqn:E.
  - rewrite (run_command_run _ _ _ _ _ _ _ E).
    destruct (andb check (negb (Z.eqb c 0))); cbn; eauto.
  - rewrite (run_command_not_started _ _ _ _ _ _ E). cbn; eauto.
Qed.

Lemma run_command_sees h cmd shell check s0 :
  Forall (configure_sees s0) (trace_of (run_command h cmd shell check s0)).
Proof.
  destruct (spawn h cmd shell s0) as [[c |] fs'] eqn:E.
  - rewrite (run_command_run _ _ _ _ _ _ _ E).
    destruct (andb check (negb (Z.eqb c 0))); cbn [trace_of snd];
      repeat constructor.
  - rewrite (run_command_not_started _ _ _ _ _ _ E). cbn [trace_of snd].
    repeat constructor.
Qed.

(** With [clean] set and a build directory in place, every configure
    process of the native pipeline starts in the tree from which the build
    directory has been removed. *)
Lemma build_linux_configure_sees h args fs :
  clean args = true ->
  path_exists build_dir fs = true ->
  Forall (configure_sees (remove build_dir fs)) (trace_of (build_linux h args fs)).
Proof.
  intros Hclean Hex. unfold build_linux.
  rewrite trace_bind. cbn [print emit trace_of result_of state_of fst snd app].
  constructor; [exact I |].
  rewrite trace_bind. apply Forall_app. split.
  { apply tame_not_configure_sees. apply tame_check_dependencies. reflexivity. }
  unfold check_dependencies_linux. rewrite check_dependencies_run.
  cbn [result_of state_of fst snd].
  destruct (forallb _ deps_linux); cbn [negb]; [| constructor].
  rewrite trace_bind, Hclean.
  cbn [exists_ trace_of result_of state_of fst snd app]. rewrite Hex.
  rewrite trace_bind, clean_step_run.
  unfold path_exists in Hex.
  destruct (lookup build_dir fs) as [[| es] |]; [| | discriminate Hex];
    cbn [trace_of result_of state_of fst snd app].
  { repeat constructor. }
  do 2 (constructor; [exact I |]).
  rewrite trace_bind. apply Forall_app. split; [apply run_command_sees |].
  destruct (result_of _); [| constructor].
  apply tame_not_configure_sees.
  assert (HP : forall e, not_configure e = true -> not_configure e = true)
    by auto.
  repeat tame_step HP.
Qed.

Lemma meson_args_is_configure args : is_configure (meson_args args) = true.
Proof. reflexivity. Qed.

(** C8: with [clean] set and a build directory present at entry, every
    configure process ([meson setup ...]) of the native pipeline is started
    in the tree from which the build directory has been removed, so it
    finds no build directory.  When moreover the dependencies resolve and
    the build directory is a directory, the run does reach configure: it
    announces the cleaning, removes the directory, and only then starts
    [meson setup]. *)
Theorem C8_clean_precedes_configure (h : Host) (args : Args) (fs : node) :
  clean args = true ->
  path_exists build_dir fs = true ->
  let t := trace_of (build_linux h args fs) in
  (forall cmd shell snap,
      In (EvSpawn cmd shell snap) t -> is_configure cmd = true ->
      snap = remove build_dir fs /\ path_exists build_dir snap = false)
  /\ is_configure (meson_args args) = true
  /\ (forall es,
         forallb (fun d => resolvable h (fst d)) deps_linux = true ->
         lookup build_dir fs = Some (Dir es) ->
         exists rest,
           t = [EvPrint "Building for Linux...";
                EvPrint "Cleaning previous build...";
                EvRmtree build_dir;
                EvPrint ("Running: " ++ join " " (meson_args args))%string;
                EvSpawn (meson_args args) false (remove build_dir fs)]
               ++ rest).
Proof.
  intros Hclean Hex t. split; [| split].
  - intros cmd shell snap Hin Hc.
    pose proof (build_linux_configure_sees h args fs Hclean Hex) as F.
    rewrite Forall_forall in F. specialize (F _ Hin Hc). subst snap.
    split; [reflexivity |].
    unfold path_exists, build_dir. now rewrite lookup_remove_top.
  - apply meson_args_is_configure.
  - intros es Hdeps L. unfold t, build_linux.
    rewrite trace_bind. cbn [print emit trace_of result_of state_of fst snd app].
    rewrite trace_bind. unfold check_dependencies_linux.
    rewrite check_dependencies_run. rewrite Hdeps.
    rewrite (proj2 (filter_unresolved_nil h deps_linux) Hdeps).
    cbn [trace_of result_of state_of fst snd app negb].
    rewrite trace_bind, Hclean.
    cbn [exists_ trace_of result_of state_of fst snd app]. rewrite Hex.
    rewrite trace_bind, clean_step_run, L.
    cbn [trace_of result_of state_of fst snd app].
    rewrite trace_bind.
    destruct (run_command_trace_head h (meson_args args) false true
                (remove build_dir fs)) as [t0 ->].
    cbn [app]. eauto.
Qed.

Lemma C8_clean_precedes_configure_witness :
  exists rest,
    trace_of (build_linux (linux_host 0) (args_for "linux" true) sample_tree) =
      [EvPrint "Building for Linux...";
       EvPrint "Cleaning previous build...";
       EvRmtree build_dir;
       EvPrint ("Running: " ++ join " " (meson_args (args_for "linux" true)))%string;
       EvSpawn (meson_args (args_for "linux" true)) false
         (remove build_dir sample_tree)]
      ++ rest.
Proof.
  exact (proj2 (proj2
    (C8_clean_precedes_configure (linux_host 0) (args_for "linux" true)
       sample_tree eq_refl eq_refl))
    [("sentinel", File)] eq_refl eq_refl).
Defined.

(** *** Distribution packager *)

(** Every file that [os.walk] lists lies in the tree, at the path the walk
    gives it. *)
Lemma walk_sound n :
  forall root r ds fl f,
    In (r, ds, fl) (walk root n) -> In f fl ->
    exists p, r ++ [f] = root ++ p /\ has_file p n.
Proof.
  induction n as [| es IH] using node_induction; intros root r ds fl f Hw Hf.
  - destruct Hw.
  - cbn [walk] in Hw. destruct Hw as [E | Hw].
    + injection E as <- <- <-. exists [f]. split; [reflexivity |].
      constructor. now apply in_filenames.
    + apply in_flat_map in Hw. destruct Hw as [[x c] [Hin Hw]].
      rewrite Forall_forall in IH.
      destruct (IH _ Hin _ _ _ _ _ Hw Hf) as [p [E Hp]]. cbn in E, Hp.
      exists (x :: p). split.
      * rewrite E, <- app_assoc. reflexivity.
      * now apply has_file_below with c.
Qed.

(** Every file of the tree is listed by [os.walk]. *)
Lemma walk_complete p n :
  has_file p n ->
  forall root, exists r ds fl f,
    In (r, ds, fl) (walk root n) /\ In f fl /\ r ++ [f] = root ++ p.
Proof.
  induction 1 as [x es Hin | x p c es Hin Hp IH]; intros root.
  - exists root, (dirnames es), (filenames es), x. cbn [walk].
    repeat split; [now left | now apply in_filenames].
  - destruct (IH (root ++ [x])) as [r [ds [fl [f [Hw [Hf E]]]]]].
    exists r, ds, fl, f. cbn [walk]. repeat split; [| exact Hf |].
    + right. apply in_flat_map. exists (x, c). now split.
    + rewrite E, <- app_assoc. reflexivity.
Qed.

Lemma in_zip_names name t :
  In name (zip_names t) <-> exists file, In (EvZipWrite file name) t.
Proof.
  unfold zip_names. rewrite in_flat_map. split.
  - intros [e [He Hn]]. destruct e; cbn in Hn; try easy.
    destruct Hn as [<- | []]. eauto.
  - intros [file H]. exists (EvZipWrite file name). split; [exact H | now left].
Qed.

Lemma zip_names_app t1 t2 : zip_names (t1 ++ t2) = zip_names t1 ++ zip_names t2.
Proof. apply flat_map_app. Qed.

Lemma zip_names_none t : forallb not_zip_write t = true -> zip_names t = [].
Proof.
  induction t as [| e t IH]; cbn; [reflexivity |].
  intros H. apply andb_prop in H. destruct H as [He Ht].
  destruct e; cbn in *; try discriminate; now apply IH.
Qed.

(** The entries written for a walk are those of the files of the tree. *)
Lemma walk_writes root n file name :
  In (EvZipWrite file name) (flat_map triple_writes (walk root n)) <->
  exists p, has_file p n /\ file = root ++ p /\ name = path_str (root ++ p).
Proof.
  rewrite in_flat_map. split.
  - intros [[[r ds] fl] [Hw He]]. cbn in He. apply in_map_iff in He.
    destruct He as [f [E Hf]]. injection E as <- <-.
    destruct (walk_sound n root r ds fl f Hw Hf) as [p [E Hp]].
    exists p. rewrite E. auto.
  - intros [p [Hp [-> ->]]].
    destruct (walk_complete p n Hp root) as [r [ds [fl [f [Hw [Hf E]]]]]].
    exists (r, ds, fl). split; [exact Hw |]. cbn. apply in_map_iff.
    exists f. rewrite E. auto.
Qed.

(** The two loops leave the tree alone and write one entry per listed file. *)
Lemma archive_loop_run top fs :
  for_each (walk portable_dir top)
    (fun '(root, dirs, files) =>
       for_each files (fun file => archive_file root file)) fs
  = (Ret tt, fs, flat_map triple_writes (walk portable_dir top)).
Proof.
  apply for_each_log. intros [[root dirs] files] s.
  rewrite (for_each_log files _
             (fun file => [EvZipWrite (root ++ [file]) (path_str (root ++ [file]))])).
  - cbn. now rewrite flat_map_singleton.
  - intros file s'. reflexivity.
Qed.

Lemma mkdir_exist_ok_cases p fs :
  mkdir_exist_ok p fs = (Ret tt, fs, [])
  \/ mkdir_exist_ok p fs = (Ret tt, place p (Dir []) fs, [EvMkdir p])
  \/ exists e, mkdir_exist_ok p fs = (Raise e, fs, []).
Proof.
  unfold mkdir_exist_ok.
  destruct (lookup p fs) as [[| es] |]; eauto.
  destruct (lookup (parent p) fs) as [[| es] |]; eauto.
Qed.

Lemma zip_open_cases p fs :
  zip_open p fs = (Ret tt, place p File fs, [EvZipOpen p])
  \/ exists e, zip_open p fs = (Raise e, fs, []).
Proof.
  unfold zip_open.
  destruct (lookup p fs) as [[| es] |]; eauto;
    destruct (lookup (parent p) fs) as [[| es'] |]; eauto.
Qed.

(** The archive step either fails before anything is written, or leaves
    every top-level name but [dist] as it was and writes one entry for each
    file the walk of the portable directory lists. *)
Lemma write_archive_cases fs :
  (exists fs1 pre,
      write_archive fs =
        (Ret tt, fs1,
         pre ++ flat_map triple_writes
                  (walk portable_dir
                     match lookup portable_dir fs with
                     | Some n => n
                     | None => File
                     end))
      /\ forallb not_zip_write pre = true
      /\ spawned pre = []
      /\ (forall x p, x <> "dist" -> lookup (x :: p) fs1 = lookup (x :: p) fs))
  \/ (exists e fs1 t, write_archive fs = (Raise e, fs1, t)).
Proof.
  remember (write_archive fs) as w eqn:W. unfold write_archive in W.
  assert (Hloop : forall s1 pre,
             (forall x p, x <> "dist" -> lookup (x :: p) s1 = lookup (x :: p) fs) ->
             forallb not_zip_write pre = true -> spawned pre = [] ->
             mkdir_exist_ok (parent zip_path) fs = (Ret tt, s1, pre) ->
             (exists fs1 pre,
                 w = (Ret tt, fs1,
                      pre ++ flat_map triple_writes
                               (walk portable_dir
                                  match lookup portable_dir fs with
                                  | Some n => n
                                  | None => File
                                  end))
                 /\ forallb not_zip_write pre = true
                 /\ spawned pre = []
                 /\ (forall x p, x <> "dist" ->
                                 lookup (x :: p) fs1 = lookup (x :: p) fs))
             \/ (exists e fs1 t, w = (Raise e, fs1, t))).
  { intros s1 pre Hs1 Hpre Hsp E.
    unfold bind at 1 in W. rewrite E in W.
    unfold bind at 1, print, emit in W. unfold bind at 1 in W.
    destruct (zip_open_cases zip_path s1) as [Z | [e Z]]; rewrite Z in W.
    - left. rewrite archive_loop_run in W.
      assert (Hz : forall x p, x <> "dist" ->
                     lookup (x :: p) (place zip_path File s1) = lookup (x :: p) fs).
      { intros x p Hx. unfold zip_path. now rewrite lookup_place_other, Hs1. }
      pose proof (Hz "amberol-windows-portable" [] ltac:(discriminate)) as Hp.
      change ["amberol-windows-portable"] with portable_dir in Hp.
      rewrite Hp in W.
      exists (place zip_path File s1),
        (pre ++ [EvPrint "Creating portable ZIP archive..."; EvZipOpen zip_path]).
      repeat split.
      + rewrite W. cbn [app]. now rewrite <- !app_assoc.
      + rewrite forallb_app, Hpre. reflexivity.
      + unfold spawned in *. rewrite flat_map_app, Hsp. reflexivity.
      + exact Hz.
    - right. rewrite W. eauto. }
  destruct (mkdir_exist_ok_cases (parent zip_path) fs) as [E | [E | [e E]]].
  - apply (Hloop fs []); auto.
  - apply (Hloop (place (parent zip_path) (Dir []) fs) [EvMkdir (parent zip_path)]);
      auto.
    intros x p Hx. cbn [parent zip_path removelast].
    now apply lookup_place_other.
  - right. unfold bind at 1 in W. rewrite E in W. rewrite W. eauto.
Qed.

(** Once the archive is written, the packager only adds events that are
    no archive entries. *)
Lemma package_windows_trace h args fs fs1 ta :
  path_exists portable_dir fs = true ->
  write_archive fs = (Ret tt, fs1, ta) ->
  exists post,
    trace_of (package_windows h args fs)
    = EvPrint "Packaging Windows distribution..." :: ta ++ post
    /\ forallb not_zip_write post = true.
Proof.
  intros Hex W. unfold package_windows.
  rewrite trace_bind. cbn [print emit trace_of result_of state_of fst snd app].
  rewrite trace_bind. cbn [exists_ trace_of result_of state_of fst snd app].
  rewrite Hex. cbn [negb].
  rewrite trace_bind, W. cbn [trace_of result_of state_of fst snd].
  eexists. split; [reflexivity |].
  match goal with
  | |- forallb _ (trace_of (?m fs1)) = true =>
      assert (T : tame not_zip_write m)
  end.
  { assert (HP : forall e, not_zip_write e = true -> not_zip_write e = true)
      by auto.
    repeat tame_step HP. }
  apply T.
Qed.

(** The archive entries of a successful packaging are those written for
    the walk of the portable directory. *)
Lemma package_windows_zip_names h args fs top :
  lookup portable_dir fs = Some top ->
  result_of (write_archive fs) = Ret tt ->
  zip_names (trace_of (package_windows h args fs))
  = zip_names (flat_map triple_writes (walk portable_dir top)).
Proof.
  intros L H.
  destruct (write_archive_cases fs) as [[fs1 [pre [W [Hpre _]]]] | [e [fs1 [t W]]]];
    [| rewrite W in H; discriminate H].
  rewrite L in W.
  assert (Hex : path_exists portable_dir fs = true)
    by (unfold path_exists; now rewrite L).
  destruct (package_windows_trace h args fs _ _ Hex W) as [post [-> Hpost]].
  change (EvPrint "Packaging Windows distribution..." :: ?l)
    with ([EvPrint "Packaging Windows distribution..."] ++ l).
  rewrite !zip_names_app, (zip_names_none pre Hpre), (zip_names_none post Hpost).
  cbn [zip_names flat_map app]. now rewrite app_nil_r.
Qed.

(** What the packager does once the archive is written. *)
Lemma package_windows_run h args fs fs1 ta :
  path_exists portable_dir fs = true ->
  write_archive fs = (Ret tt, fs1, ta) ->
  let head := EvPrint "Packaging Windows distribution..." in
  let done := EvPrint "Windows packaging completed!" in
  let no_tool := EvPrint "Inno Setup not found, skipping installer creation" in
  package_windows h args fs =
    match which h "iscc" with
    | Some inno =>
        if negb (String.eqb inno EmptyString) then
          if path_exists iss_file fs1 then
            let cmd := [inno; path_str iss_file] in
            let started :=
              [EvPrint "Creating Windows installer...";
               EvPrint ("Running: " ++ join " " cmd)%string;
               EvSpawn cmd false fs1] in
            match spawn h cmd false fs1 with
            | (Some c, fs2) =>
                if Z.eqb c 0
                then (Ret true, fs2, head :: ta ++ started ++ [done])
                else (Raise (SystemExit 1), fs2,
                      head :: ta ++ started ++ [EvPrintError cmd c])
            | (None, fs2) =>
                (Raise (OSError "FileNotFoundError"), fs2, head :: ta ++ started)
            end
          else
            (Ret true, fs1,
             head :: ta
               ++ [EvPrint "Creating Windows installer...";
                   EvPrint "Installer script not found, skipping installer creation";
                   done])
        else (Ret true, fs1, head :: ta ++ [no_tool; done])
    | None => (Ret true, fs1, head :: ta ++ [no_tool; done])
    end.
Proof.
  intros Hex W head done no_tool.
  unfold package_windows, bind, print, emit, exists_, ret.
  rewrite Hex. cbn [negb]. rewrite W.
  destruct (which h "iscc") as [inno |]; [| reflexivity].
  destruct (negb (String.eqb inno EmptyString)); [| reflexivity].
  destruct (path_exists iss_file fs1); [| reflexivity].
  destruct (spawn h [inno; path_str iss_file] false fs1) as [[c |] fs2] eqn:E.
  - rewrite (run_command_run _ _ _ _ _ _ _ E). cbn [andb].
    destruct (Z.eqb c 0); reflexivity.
  - rewrite (run_command_not_started _ _ _ _ _ _ E). reflexivity.
Qed.

Lemma spawned_app t1 t2 : spawned (t1 ++ t2) = spawned t1 ++ spawned t2.
Proof. apply flat_map_app. Qed.

Lemma spawned_triple_writes l : spawned (flat_map triple_writes l) = [].
Proof.
  induction l as [| [[root dirs] files] l IH]; [reflexivity |].
  cbn [flat_map]. rewrite spawned_app, IH, app_nil_r.
  cbn [triple_writes]. induction files as [| f files IHf]; [reflexivity |].
  exact IHf.
Qed.

(** C7, as the code has it: with the portable directory in place and the
    archive written, a process is started exactly when [iscc] resolves and
    the installer script exists, and it is the installer on that script.
    When the tool or the script is missing, the skip line is printed and
    the packager returns true, the archive being written.  When the
    installer runs, its return code decides: 0 leaves the result true, any
    other code aborts the run with [SystemExit(1)]. *)
Theorem C7_installer_runs_iff_tool_and_script (h : Host) (args : Args) (fs : node) :
  path_exists portable_dir fs = true ->
  result_of (write_archive fs) = Ret tt ->
  let run := package_windows h args fs in
  let fs1 := state_of (write_archive fs) in
  (spawned (trace_of run) <> [] <->
   resolvable h "iscc" = true /\ path_exists iss_file fs = true)
  /\ (forall cmd,
         In cmd (spawned (trace_of run)) ->
         exists inno, which h "iscc" = Some inno
                      /\ cmd = [inno; "amberol-installer.iss"])
  /\ (exists post,
         trace_of run
         = EvPrint "Packaging Windows distribution..."
             :: trace_of (write_archive fs) ++ post)
  /\ (resolvable h "iscc" = false ->
      result_of run = Ret true
      /\ printed "Inno Setup not found, skipping installer creation" (trace_of run))
  /\ (resolvable h "iscc" = true -> path_exists iss_file fs = false ->
      result_of run = Ret true
      /\ printed "Installer script not found, skipping installer creation"
                 (trace_of run))
  /\ (forall inno c fs2,
         which h "iscc" = Some inno ->
         resolvable h "iscc" = true -> path_exists iss_file fs = true ->
         spawn h [inno; "amberol-installer.iss"] false fs1 = (Some c, fs2) ->
         result_of run = if Z.eqb c 0 then Ret true else Raise (SystemExit 1)).
Proof.
  intros Hex H run fs1.
  destruct (write_archive_cases fs) as [[s1 [pre [W [_ [Hsp Hl]]]]] | [e [s1 [t W]]]];
    [| rewrite W in H; discriminate H].
  set (ta := pre ++ _) in W.
  assert (Hta : spawned ta = []).
  { unfold ta. now rewrite spawned_app, Hsp, spawned_triple_writes. }
  assert (Hiss : path_exists iss_file s1 = path_exists iss_file fs).
  { unfold path_exists, iss_file. rewrite Hl by discriminate. reflexivity. }
  assert (Hsplit : forall l,
             spawned (EvPrint "Packaging Windows distribution..." :: ta ++ l)
             = spawned l).
  { intros l. change (spawned (ta ++ l) = spawned l).
    now rewrite spawned_app, Hta. }
  unfold run, fs1. rewrite (package_windows_run h args fs s1 ta Hex W), W.
  cbn zeta. cbn [state_of trace_of result_of fst snd]. rewrite <- Hiss.
  unfold resolvable. clear W Hl Hsp Hiss H Hex run fs1.
  destruct (which h "iscc") as [inno |].
  2: { cbn [trace_of result_of fst snd]. rewrite Hsplit.
       repeat split; try easy; eauto.
       apply in_cons, in_or_app; right; now left. }
  destruct (negb (String.eqb inno EmptyString)).
  2: { cbn [trace_of result_of fst snd]. rewrite Hsplit.
       repeat split; try easy; eauto.
       apply in_cons, in_or_app; right; now left. }
  destruct (path_exists iss_file s1).
  2: { cbn [trace_of result_of fst snd]. rewrite Hsplit.
       repeat split; try easy; eauto.
       apply in_cons, in_or_app; right; right; now left. }
  cbn [path_str iss_file join String.concat].
  destruct (spawn h [inno; "amberol-installer.iss"] false s1) as [[c |] fs2] eqn:E.
  - destruct (Z.eqb c 0) eqn:Hc; cbn [trace_of result_of fst snd];
      rewrite Hsplit; cbn [spawned flat_map app].
    + repeat split; try easy; eauto.
      * intros cmd [<- | []]. eauto.
      * intros i c' f2 Hi _ _ E'. injection Hi as <-. rewrite E in E'.
        injection E' as <- <-. now rewrite Hc.
    + repeat split; try easy; eauto.
      * intros cmd [<- | []]. eauto.
      * intros i c' f2 Hi _ _ E'. injection Hi as <-. rewrite E in E'.
        injection E' as <- <-. now rewrite Hc.
  - cbn [trace_of result_of fst snd]. rewrite Hsplit. cbn [spawned flat_map app].
    repeat split; try easy; eauto.
    + intros cmd [<- | []]. eauto.
    + intros i c' f2 Hi _ _ E'. injection Hi as <-. rewrite E in E'.
      discriminate E'.
Qed.

(** The tool resolves, the installer script is missing: the packager
    prints the skip line and returns true. *)
Lemma C7_installer_runs_iff_tool_and_script_witness :
  result_of
    (package_windows (linux_host 0) (args_for "package-windows" false)
       (Dir [("amberol-windows-portable", Dir [("a.txt", File)])]))
  = Ret true
  /\ printed "Installer script not found, skipping installer creation"
       (trace_of
          (package_windows (linux_host 0) (args_for "package-windows" false)
             (Dir [("amberol-windows-portable", Dir [("a.txt", File)])]))).
Proof.
  exact (proj1 (proj2 (proj2 (proj2 (proj2
    (C7_installer_runs_iff_tool_and_script (linux_host 0)
       (args_for "package-windows" false)
       (Dir [("amberol-windows-portable", Dir [("a.txt", File)])])
       eq_refl eq_refl))))) eq_refl eq_refl).
Defined.

(** C7 as stated fails in its last part: on the same tree, with the tool
    and the installer script both present and the archive written, the
    result is true when the installer returns 0 and [SystemExit(1)] when it
    returns 3; installer generation does affect the result. *)
Lemma C7_failing_installer_changes_result :
  let args := args_for "package-windows" false in
  resolvable (linux_host 3) "iscc" = true
  /\ path_exists iss_file sample_tree = true
  /\ result_of (package_windows (linux_host 0) args sample_tree) = Ret true
  /\ result_of (package_windows (linux_host 3) args sample_tree)
     = Raise (SystemExit 1)
  /\ zip_names (trace_of (package_windows (linux_host 3) args sample_tree))
     = ["amberol-windows-portable/a.txt"; "amberol-windows-portable/sub/b.txt"]
  /\ spawned (trace_of (package_windows (linux_host 3) args sample_tree))
     = [["/usr/bin/iscc"; "amberol-installer.iss"]].
Proof. repeat split. Qed.

End CrossPlatformFacts.

(** ** build_cargo.py *)
Module CargoFacts.
Import Cargo.

Example cargo_cmd_debug :
  cargo_cmd (sample_args "debug")
  = ["cargo"; "build"; "--manifest-path"; "Cargo.toml"; "--target-dir"; "target"].
Proof. reflexivity. Qed.

Example cargo_success_copies :
  trace_of (main (posix_host 0) (sample_args "release") [])
  = [EvPrint "Running: cargo build --manifest-path Cargo.toml --target-dir target --release";
     EvSpawn (cargo_cmd (sample_args "release")) "/tmp/cargo";
     EvPrint "Copying target/release/amberol to out/amberol";
     EvCopy "target/release/amberol" "out/amberol";
     EvChmod "out/amberol" 493;
     EvPrint "Build completed successfully!"].
Proof. reflexivity. Qed.

Lemma cargo_cmd_release args :
  cargo_cmd args = cargo_base args ++ ["--release"] <-> profile args = "release".
Proof.
  unfold cargo_cmd. destruct (String.eqb (profile args) "release") eqn:E.
  - apply String.eqb_eq in E. tauto.
  - apply String.eqb_neq in E. split; [| tauto].
    intros H. apply (f_equal (@length string)) in H.
    rewrite !length_app in H. cbn in H. lia.
Qed.

(** C10, as the code has it: [--release] is appended to the cargo command
    exactly when the profile is [release]; and when the cargo process
    returns a non-zero code [c], the driver prints the failure and raises
    [SystemExit(c)]: nothing is copied or chmod-ed and the world is the one
    cargo left.  The status the operating system reports is [c] itself for
    an exit code proper (between 1 and 255), and [c mod 256] on POSIX in
    general, so 247 and not -9 when cargo was killed by signal 9. *)
Theorem C10_cargo_failure_raises_its_code {W : Type} (h : Host W) (args : Args) :
  (cargo_cmd args = cargo_base args ++ ["--release"] <-> profile args = "release")
  /\ (profile args <> "release" -> cargo_cmd args = cargo_base args)
  /\ (forall w c w',
         spawn h (cargo_cmd args) (cargo_home args) w = (Some c, w') ->
         c <> 0%Z ->
         main h args w =
           (Raise (SystemExit c), w',
            [EvPrint ("Running: " ++ join " " (cargo_cmd args))%string;
             EvSpawn (cargo_cmd args) (cargo_home args);
             EvPrint ("Cargo build failed with exit code " ++ str_int c)%string])
         /\ ((0 < c < 256)%Z ->
             forall nt, os_status nt (exit_code (result_of (main h args w))) = c)
         /\ os_status false (exit_code (result_of (main h args w)))
            = (c mod 256)%Z
         /\ state_of (main h args w) = w'
         /\ forallb (fun e => match e with
                              | EvCopy _ _ | EvChmod _ _ => false
                              | _ => true
                              end) (trace_of (main h args w)) = true).
Proof.
  split; [apply cargo_cmd_release |]. split.
  - intros Hp. unfold cargo_cmd. apply String.eqb_neq in Hp. rewrite Hp.
    apply app_nil_r.
  - intros w c w' E Hc.
    assert (R : main h args w =
      (Raise (SystemExit c), w',
       [EvPrint ("Running: " ++ join " " (cargo_cmd args))%string;
        EvSpawn (cargo_cmd args) (cargo_home args);
        EvPrint ("Cargo build failed with exit code " ++ str_int c)%string])).
    { unfold main, bind, print, emit, subprocess_run, sys_exit, raise.
      rewrite E. apply Z.eqb_neq in Hc. rewrite Hc. reflexivity. }
    rewrite R. cbn [result_of state_of trace_of fst snd exit_code].
    split; [reflexivity |]. split; [| repeat split].
    intros Hrange [|]; unfold os_status.
    + apply Z.mod_small. lia.
    + apply Z.mod_small. lia.
Qed.

Lemma C10_cargo_failure_raises_its_code_witness :
  os_status false
    (exit_code (result_of (main (posix_host 101) (sample_args "debug") [])))
  = 101%Z.
Proof.
  exact (proj1 (proj2
    (proj2 (proj2 (C10_cargo_failure_raises_its_code (posix_host 101)
                     (sample_args "debug")))
       [] 101%Z [] eq_refl ltac:(discriminate)))
    ltac:(lia) false).
Defined.

(** C10 as stated fails for the codes of a killed process: cargo killed by
    signal 9 is reported by [subprocess] as return code -9; the driver
    prints "exit code -9" and calls [sys.exit(-9)], and the status it
    leaves on POSIX is 247, not -9. *)
Lemma C10_killed_cargo_status_is_truncated :
  let run := main (posix_host (-9)) (sample_args "debug") [] in
  spawn (posix_host (-9)) (cargo_cmd (sample_args "debug")) "/tmp/cargo" []
  = (Some (-9)%Z, [])
  /\ result_of run = Raise (SystemExit (-9))
  /\ In (EvPrint "Cargo build failed with exit code -9") (trace_of run)
  /\ os_status false (exit_code (result_of run)) = 247%Z
  /\ os_status false (exit_code (result_of run)) <> (-9)%Z.
Proof.
  repeat split; try (right; right; left; reflexivity). discriminate.
Qed.

End CargoFacts.

(** ** build_cross_platform.py: further properties *)
Module CrossPlatformMore.
Import CrossPlatform CrossPlatformFacts.

(** *** Platform detector *)

(** X1: the detected platform is one of the four kinds; it is [windows],
    [linux] or [freebsd] exactly when the host's system name is that word
    up to letter case, and [unknown] for every other name. *)
Theorem detect_platform_closed (h : Host) :
  In (detect_platform h) ["windows"; "linux"; "freebsd"; "unknown"]
  /\ (detect_platform h = "windows" <-> lower (system h) = "windows")
  /\ (detect_platform h = "linux" <-> lower (system h) = "linux")
  /\ (detect_platform h = "freebsd" <-> lower (system h) = "freebsd")
  /\ (detect_platform h = "unknown" <->
      lower (system h) <> "windows" /\ lower (system h) <> "linux"
      /\ lower (system h) <> "freebsd").
Proof.
  unfold detect_platform.
  destruct (String.eqb (lower (system h)) "windows") eqn:Ew;
    [apply String.eqb_eq in Ew; rewrite Ew; cbn; intuition congruence |].
  destruct (String.eqb (lower (system h)) "linux") eqn:El;
    [apply String.eqb_eq in El; rewrite El; cbn; intuition congruence |].
  destruct (String.eqb (lower (system h)) "freebsd") eqn:Ef;
    [apply String.eqb_eq in Ef; rewrite Ef; cbn; intuition congruence |].
  apply String.eqb_neq in Ew, El, Ef. cbn. intuition congruence.
Qed.

(** *** Command runner *)

(** Take a hypothesis on outcomes apart and close the goal by congruence. *)
Ltac decompose_run H :=
  repeat match type of H with
         | _ /\ _ => let H' := fresh in destruct H as [H H']; decompose_run H'
         | exists _, _ => let x := fresh in destruct H as [x H]
         | _ \/ _ => destruct H as [H | H]
         | Ret _ = Ret _ => injection H as H
         | Raise _ = Raise _ => injection H as H
         | SystemExit _ = SystemExit _ => injection H as H
         | Some _ = Some _ => injection H as H
         end;
  subst; try congruence; eauto 6.

(** X2: [run_command] starts exactly one process, the given command, and
    leaves the tree as that process left it.  It returns the process's code
    exactly when the process started and either [check] is off or the code
    is 0; the only exit it raises is [SystemExit(1)], and only under
    [check] for a non-zero code. *)
Theorem run_command_returns_iff (h : Host) (cmd : list string)
        (shell check : bool) (fs : node) :
  let run := run_command h cmd shell check fs in
  spawned (trace_of run) = [cmd]
  /\ state_of run = snd (spawn h cmd shell fs)
  /\ (forall c,
         result_of run = Ret c <->
         fst (spawn h cmd shell fs) = Some c /\ (check = false \/ c = 0%Z))
  /\ (forall code,
         result_of run = Raise (SystemExit code) <->
         code = 1%Z /\ check = true
         /\ exists c, fst (spawn h cmd shell fs) = Some c /\ c <> 0%Z).
Proof.
  cbn zeta.
  destruct (spawn h cmd shell fs) as [[c |] fs'] eqn:E.
  - rewrite (run_command_run _ _ _ _ _ _ _ E). cbn [fst snd].
    destruct check; cbn [andb];
      [destruct (Z.eqb c 0) eqn:Hc; cbn [negb];
       [apply Z.eqb_eq in Hc | apply Z.eqb_neq in Hc] |];
      cbn [result_of state_of trace_of fst snd spawned flat_map app];
      (split; [reflexivity |]); (split; [reflexivity |]);
      split; intros x; split; intros Hx; decompose_run Hx.
  - rewrite (run_command_not_started _ _ _ _ _ _ E).
    cbn [result_of state_of trace_of fst snd spawned flat_map app].
    (split; [reflexivity |]); (split; [reflexivity |]);
      split; intros x; split; intros Hx; decompose_run Hx.
Qed.

(** X3: a process that cannot be started is not handled by [run_command]:
    the [OSError] leaves the function uncaught, no error line is printed
    after the command line, and the interpreter's status is 1. *)
Theorem run_command_launch_failure_uncaught (h : Host) (cmd : list string)
        (shell check : bool) (fs fs' : node) :
  spawn h cmd shell fs = (None, fs') ->
  let run := run_command h cmd shell check fs in
  result_of run = Raise (OSError "FileNotFoundError")
  /\ trace_of run
     = [EvPrint ("Running: " ++ join " " cmd)%string; EvSpawn cmd shell fs]
  /\ exit_code (result_of run) = 1%Z
  /\ (forall (B : Type) (k : Z -> Script B),
         result_of (bind (run_command h cmd shell check) k fs)
         = Raise (OSError "FileNotFoundError")).
Proof.
  intros E run. unfold run.
  pose proof (run_command_not_started h cmd shell check fs fs' E) as R.
  rewrite R. repeat split.
  intros B k. now rewrite (bind_raise_run _ _ _ _ _ _ R).
Qed.

Lemma run_command_launch_failure_uncaught_witness :
  exit_code
    (result_of
       (run_command
          {| system := "Linux"; which := fun _ => None; msys2 := false;
             spawn := fun _ _ fs => (None, fs) |}
          ["meson"; "setup"] false true (Dir [])))
  = 1%Z.
Proof.
  exact (proj1 (proj2 (proj2
    (run_command_launch_failure_uncaught
       {| system := "Linux"; which := fun _ => None; msys2 := false;
          spawn := fun _ _ fs => (None, fs) |}
       ["meson"; "setup"] false true (Dir []) (Dir []) eq_refl)))).
Defined.

(** *** Runs that come after a prefix *)

Lemma bind_ret_after {A B} (m : Script A) (k : A -> Script B) s a s1 t1 :
  m s = (Ret a, s1, t1) -> bind m k s = after t1 (k a s1).
Proof. intros E. unfold after. now apply bind_ret_run. Qed.

Lemma bind_emit_after {B} (e : event) (k : unit -> Script B) s :
  bind (emit e) k s = after [e] (k tt s).
Proof. unfold after. now rewrite bind_emit_run. Qed.

Lemma after_after {A} (t1 t2 : list event) (x : outcome A * node * list event) :
  after t1 (after t2 x) = after (t1 ++ t2) x.
Proof. unfold after. cbn. now rewrite app_assoc. Qed.

Lemma after_tuple {A} (t1 : list event) (r : outcome A) (s : node) t :
  after t1 (r, s, t) = (r, s, t1 ++ t).
Proof. reflexivity. Qed.

Lemma removed_app t1 t2 : removed (t1 ++ t2) = removed t1 ++ removed t2.
Proof. apply flat_map_app. Qed.

Lemma removed_none t : forallb not_rmtree t = true -> removed t = [].
Proof.
  induction t as [| e t IH]; cbn; [reflexivity |].
  intros H. apply andb_prop in H. destruct H as [He Ht].
  destruct e; cbn in *; try discriminate; now apply IH.
Qed.

Lemma spawned_none t : forallb not_spawn t = true -> spawned t = [].
Proof.
  induction t as [| e t IH]; cbn; [reflexivity |].
  intros H. apply andb_prop in H. destruct H as [He Ht].
  destruct e; cbn in *; try discriminate; now apply IH.
Qed.

(** The report of the dependency checker starts no process and removes
    nothing. *)
Lemma check_dependencies_quiet h deps fs :
  spawned (trace_of (check_dependencies h deps fs)) = []
  /\ removed (trace_of (check_dependencies h deps fs)) = [].
Proof.
  split.
  - apply spawned_none. apply (tame_check_dependencies not_spawn); reflexivity.
  - apply removed_none. apply (tame_check_dependencies not_rmtree); reflexivity.
Qed.

(** *** Native pipeline *)

(** The three steps of the native pipeline from a tree [s0]. *)
Lemma build_steps_run h args s0 :
  build_steps h args s0 =
    let configure := meson_args args in
    let done := EvPrint "Linux build completed successfully!" in
    match spawn h configure false s0 with
    | (None, s1) =>
        (Raise (OSError "FileNotFoundError"), s1, started configure false s0)
    | (Some c1, s1) =>
        if negb (Z.eqb c1 0) then
          (Raise (SystemExit 1), s1,
           started configure false s0 ++ [EvPrintError configure c1])
        else
          after (started configure false s0)
            match spawn h compile_cmd false s1 with
            | (None, s2) =>
                (Raise (OSError "FileNotFoundError"), s2,
                 started compile_cmd false s1)
            | (Some c2, s2) =>
                if negb (Z.eqb c2 0) then
                  (Raise (SystemExit 1), s2,
                   started compile_cmd false s1 ++ [EvPrintError compile_cmd c2])
                else
                  after (started compile_cmd false s1)
                    (if install args then
                       match spawn h install_cmd false s2 with
                       | (None, s3) =>
                           (Raise (OSError "FileNotFoundError"), s3,
                            started install_cmd false s2)
                       | (Some c3, s3) =>
                           if negb (Z.eqb c3 0) then
                             (Raise (SystemExit 1), s3,
                              started install_cmd false s2
                                ++ [EvPrintError install_cmd c3])
                           else
                             (Ret true, s3, started install_cmd false s2 ++ [done])
                       end
                     else (Ret true, s2, [done]))
            end
    end.
Proof.
  cbn zeta. unfold build_steps, after, started.
  destruct (spawn h (meson_args args) false s0) as [[c1 |] s1] eqn:E1.
  2: { unfold bind at 1. now rewrite (run_command_not_started _ _ _ _ _ _ E1). }
  unfold bind at 1. rewrite (run_command_run _ _ _ _ _ _ _ E1). cbn [andb].
  destruct (negb (Z.eqb c1 0)); [reflexivity |].
  destruct (spawn h compile_cmd false s1) as [[c2 |] s2] eqn:E2.
  2: { unfold bind at 1. now rewrite (run_command_not_started _ _ _ _ _ _ E2). }
  unfold bind at 1. rewrite (run_command_run _ _ _ _ _ _ _ E2). cbn [andb].
  destruct (negb (Z.eqb c2 0)); [reflexivity |].
  destruct (install args); [| reflexivity].
  destruct (spawn h install_cmd false s2) as [[c3 |] s3] eqn:E3.
  2: { unfold bind at 1 2. now rewrite (run_command_not_started _ _ _ _ _ _ E3). }
  unfold bind at 1 2. rewrite (run_command_run _ _ _ _ _ _ _ E3). cbn [andb].
  destruct (negb (Z.eqb c3 0)); reflexivity.
Qed.

(** The whole of [build_linux]: the dependency gate, the cleaning, the
    three steps. *)
Lemma build_linux_run h args fs :
  build_linux h args fs =
    let head := EvPrint "Building for Linux..." in
    let cleaning := EvPrint "Cleaning previous build..." in
    if forallb (fun d => resolvable h (fst d)) deps_linux then
      if andb (clean args) (path_exists build_dir fs) then
        match lookup build_dir fs with
        | Some (Dir _) =>
            after [head; cleaning; EvRmtree build_dir]
              (build_steps h args (remove build_dir fs))
        | Some File =>
            (Raise (OSError "NotADirectoryError"), fs, [head; cleaning])
        | None =>
            (Raise (OSError "FileNotFoundError"), fs, [head; cleaning])
        end
      else after [head] (build_steps h args fs)
    else
      (Ret false, fs,
       head :: trace_of (check_dependencies h deps_linux fs)).
Proof.
  cbn zeta.
  change (build_linux h args fs) with
    ((print "Building for Linux..." ;;
      ok <- check_dependencies_linux h ;;
      if negb ok then ret false else
      present <- (if clean args then exists_ build_dir else ret false) ;;
      (if present then
         print "Cleaning previous build..." ;; rmtree build_dir
       else ret tt) ;;
      build_steps h args) fs).
  unfold print at 1. rewrite bind_emit_after.
  unfold check_dependencies_linux.
  rewrite (bind_ret_after _ _ _ _ _ _ (check_dependencies_run h deps_linux fs)).
  rewrite check_dependencies_run. cbn [trace_of snd].
  destruct (forallb _ deps_linux) eqn:Hd; cbn [negb].
  2: { rewrite after_after. unfold after, ret.
       cbn [result_of state_of trace_of fst snd app]. now rewrite app_nil_r. }
  rewrite (proj2 (filter_unresolved_nil h deps_linux) Hd). rewrite after_after.
  cbn [app].
  destruct (clean args); cbn [andb].
  2: { rewrite (bind_ret_after _ _ fs false fs [] eq_refl).
       rewrite (bind_ret_after _ _ fs tt fs [] eq_refl).
       now rewrite !after_after. }
  rewrite (bind_ret_after _ _ fs (path_exists build_dir fs) fs [] eq_refl).
  rewrite after_after. cbn [app].
  destruct (path_exists build_dir fs) eqn:Hex.
  2: { rewrite (bind_ret_after _ _ fs tt fs [] eq_refl).
       now rewrite !after_after. }
  pose proof (clean_step_run fs) as C.
  unfold path_exists in Hex.
  destruct (lookup build_dir fs) as [[| es] |]; [| | discriminate Hex].
  - rewrite (bind_raise_run _ _ _ _ _ _ C). reflexivity.
  - rewrite (bind_ret_after _ _ _ _ _ _ C). now rewrite after_after.
Qed.

Lemma configure_neq_compile args : meson_args args <> compile_cmd.
Proof. unfold meson_args, compile_cmd. cbn. discriminate. Qed.

Lemma configure_neq_install args : meson_args args <> install_cmd.
Proof. unfold meson_args, install_cmd. cbn. discriminate. Qed.

Lemma compile_neq_install : compile_cmd <> install_cmd.
Proof. discriminate. Qed.

(** X4: when one of meson, ninja or cargo does not resolve, [build_linux]
    reports the missing tools and returns false: no process is started,
    nothing is removed (even with [clean] set) and the tree is untouched. *)
Theorem build_linux_dependency_gate (h : Host) (args : Args) (fs : node) :
  resolvable h "meson" = false \/ resolvable h "ninja" = false
  \/ resolvable h "cargo" = false ->
  let run := build_linux h args fs in
  result_of run = Ret false
  /\ state_of run = fs
  /\ spawned (trace_of run) = []
  /\ removed (trace_of run) = []
  /\ printed "Missing dependencies:" (trace_of run).
Proof.
  intros Hm run. unfold run. rewrite build_linux_run. cbn zeta.
  assert (Hd : forallb (fun d => resolvable h (fst d)) deps_linux = false).
  { cbn. destruct Hm as [-> | [-> | ->]]; cbn;
      rewrite ?andb_false_r; reflexivity. }
  rewrite Hd. cbn [result_of state_of trace_of fst snd].
  destruct (check_dependencies_quiet h deps_linux fs) as [Hs Hr].
  repeat split.
  - change (spawned (trace_of (check_dependencies h deps_linux fs)) = []).
    exact Hs.
  - change (removed (trace_of (check_dependencies h deps_linux fs)) = []).
    exact Hr.
  - right. rewrite check_dependencies_run. cbn [trace_of snd].
    destruct (filter (unresolved h) deps_linux) eqn:F; [| now left].
    apply filter_unresolved_nil in F. congruence.
Qed.

Lemma build_linux_dependency_gate_witness :
  removed
    (trace_of
       (build_linux
          {| system := "Linux";
             which := fun name =>
               if String.eqb name "cargo" then None else Some "/usr/bin/tool";
             msys2 := false; spawn := fun _ _ fs => (Some 0%Z, fs) |}
          (args_for "linux" true) sample_tree))
  = [].
Proof.
  exact (proj1 (proj2 (proj2 (proj2
    (build_linux_dependency_gate
       {| system := "Linux";
          which := fun name =>
            if String.eqb name "cargo" then None else Some "/usr/bin/tool";
          msys2 := false; spawn := fun _ _ fs => (Some 0%Z, fs) |}
       (args_for "linux" true) sample_tree
       (or_intror (or_intror eq_refl))))))).
Defined.

(** The processes of the three steps from a tree [s0], in order. *)
Lemma build_steps_in_order h args s0 :
  let run := build_steps h args s0 in
  let t := trace_of run in
  (exists k, spawned t = firstn k [meson_args args; compile_cmd; install_cmd])
  /\ (In compile_cmd (spawned t) ->
      exists s1, spawn h (meson_args args) false s0 = (Some 0%Z, s1))
  /\ (In install_cmd (spawned t) ->
      install args = true
      /\ exists s1 s2,
          spawn h (meson_args args) false s0 = (Some 0%Z, s1)
          /\ spawn h compile_cmd false s1 = (Some 0%Z, s2))
  /\ (result_of run = Ret true ->
      spawned t
      = meson_args args :: compile_cmd
          :: (if install args then [install_cmd] else [])
      /\ printed "Linux build completed successfully!" t)
  /\ removed t = [].
Proof.
  cbn zeta. rewrite build_steps_run. cbn zeta.
  pose proof (configure_neq_compile args) as N1.
  pose proof (configure_neq_install args) as N2.
  pose proof compile_neq_install as N3.
  unfold after, started.
  repeat match goal with
         | |- context [match spawn ?h' ?c ?sh ?s with _ => _ end] =>
             let E := fresh "E" in
             destruct (spawn h' c sh s) as [[? |] ?] eqn:E
         | |- context [negb (Z.eqb ?c 0)] =>
             destruct (Z.eqb_spec c 0) as [-> | ?]; cbn [negb]
         | |- context [if install ?a then _ else _] => destruct (install a)
         end;
    cbn [result_of state_of trace_of fst snd app spawned removed flat_map];
    (split; [first [now exists 0 | now exists 1 | now exists 2 | now exists 3] |]);
    (split; [intros Hin; cbn [In] in Hin; intuition (eauto 6; congruence) |]);
    (split; [intros Hin; cbn [In] in Hin; intuition (eauto 6; congruence) |]);
    (split; [intros Hr;
             first [discriminate Hr
                   | split; [reflexivity | unfold printed; cbn [In]; intuition]]
            | reflexivity]).
Qed.

(** X5: the processes [build_linux] starts are an initial part of
    configure, compile, install, in that order: compile is started only
    after configure returned 0 in the (possibly cleaned) tree, install only
    when the install flag is set and compile returned 0; and a true result
    means that all the steps asked for were run and the success line was
    printed. *)
Theorem build_linux_steps_in_order (h : Host) (args : Args) (fs : node) :
  let run := build_linux h args fs in
  let t := trace_of run in
  let s0 := cleaned args fs in
  (exists k, spawned t = firstn k [meson_args args; compile_cmd; install_cmd])
  /\ (In compile_cmd (spawned t) ->
      exists s1, spawn h (meson_args args) false s0 = (Some 0%Z, s1))
  /\ (In install_cmd (spawned t) ->
      install args = true
      /\ exists s1 s2,
          spawn h (meson_args args) false s0 = (Some 0%Z, s1)
          /\ spawn h compile_cmd false s1 = (Some 0%Z, s2))
  /\ (result_of run = Ret true ->
      spawned t
      = meson_args args :: compile_cmd
          :: (if install args then [install_cmd] else [])
      /\ printed "Linux build completed successfully!" t).
Proof.
  cbn zeta. rewrite build_linux_run. cbn zeta. unfold cleaned.
  destruct (forallb _ deps_linux).
  2: { cbn [result_of state_of trace_of fst snd].
       change (spawned (EvPrint "Building for Linux..." :: ?l)) with (spawned l).
       rewrite (proj1 (check_dependencies_quiet h deps_linux fs)).
       repeat split; try easy. now exists 0. }
  destruct (andb (clean args) (path_exists build_dir fs)) eqn:Hc.
  - apply andb_prop in Hc. destruct Hc as [_ Hex]. unfold path_exists in Hex.
    destruct (lookup build_dir fs) as [[| es] |]; [| | discriminate Hex].
    + cbn [result_of state_of trace_of fst snd spawned flat_map app].
      repeat split; try easy. now exists 0.
    + destruct (build_steps_in_order h args (remove build_dir fs))
        as [Hk [Hc [Hi [Hr _]]]].
      unfold after. cbn [result_of state_of trace_of fst snd].
      change (spawned ([?a; ?b; ?c] ++ ?l)) with (spawned l).
      repeat split; try assumption; try apply Hi; try apply Hr; try assumption.
      right. right. right. now apply Hr.
  - destruct (build_steps_in_order h args fs) as [Hk [Hc' [Hi [Hr _]]]].
    unfold after. cbn [result_of state_of trace_of fst snd].
    change (spawned ([?a] ++ ?l)) with (spawned l).
    repeat split; try assumption; try apply Hi; try apply Hr; try assumption.
    right. now apply Hr.
Qed.

Lemma build_steps_sees h args s0 :
  Forall (configure_sees s0) (trace_of (build_steps h args s0)).
Proof.
  unfold build_steps. rewrite trace_bind.
  apply Forall_app. split; [apply run_command_sees |].
  destruct (result_of _); [| constructor].
  apply tame_not_configure_sees.
  assert (HP : forall e, not_configure e = true -> not_configure e = true)
    by auto.
  repeat tame_step HP.
Qed.

(** Every configure process of [build_linux] finds the cleaned tree. *)
Lemma build_linux_sees h args fs :
  Forall (configure_sees (cleaned args fs)) (trace_of (build_linux h args fs)).
Proof.
  rewrite build_linux_run. cbn zeta. unfold cleaned.
  destruct (forallb _ deps_linux).
  2: { cbn [trace_of snd]. constructor; [exact I |].
       apply tame_not_configure_sees.
       apply tame_check_dependencies. reflexivity. }
  destruct (andb (clean args) (path_exists build_dir fs)).
  2: { unfold after. cbn [trace_of snd app]. constructor; [exact I |].
       apply build_steps_sees. }
  destruct (lookup build_dir fs) as [[| es] |];
    [repeat constructor | | repeat constructor].
  unfold after. cbn [trace_of snd app].
  do 3 (constructor; [exact I |]). apply build_steps_sees.
Qed.

(** X6: [build_linux] removes nothing but the build directory, and removes
    it exactly when the dependencies resolve, [clean] is set and the
    directory exists; every configure process finds the tree as it was at
    entry, less the build directory when it was removed. *)
Theorem build_linux_removes_only_build_dir (h : Host) (args : Args) (fs : node) :
  let t := trace_of (build_linux h args fs) in
  (removed t = [build_dir] <->
   forallb (fun d => resolvable h (fst d)) deps_linux = true
   /\ clean args = true
   /\ exists es, lookup build_dir fs = Some (Dir es))
  /\ (removed t = [] \/ removed t = [build_dir])
  /\ (forall cmd shell snap,
         In (EvSpawn cmd shell snap) t -> is_configure cmd = true ->
         snap = cleaned args fs)
  /\ (clean args = false -> cleaned args fs = fs).
Proof.
  cbn zeta.
  assert (Hsees : forall cmd shell snap,
             In (EvSpawn cmd shell snap) (trace_of (build_linux h args fs)) ->
             is_configure cmd = true -> snap = cleaned args fs).
  { intros cmd shell snap Hin Hc.
    pose proof (build_linux_sees h args fs) as F.
    rewrite Forall_forall in F. exact (F _ Hin Hc). }
  revert Hsees. rewrite build_linux_run. cbn zeta. unfold cleaned. intros Hsees.
  split; [| split; [| split]].
  4: { now intros ->. }
  - destruct (forallb _ deps_linux).
    2: { cbn [trace_of snd].
         change (removed (EvPrint "Building for Linux..." :: ?l)) with (removed l).
         rewrite (proj2 (check_dependencies_quiet h deps_linux fs)).
         split; [discriminate | intros [H _]; discriminate H]. }
    destruct (clean args); cbn [andb].
    2: { unfold after. cbn [trace_of snd].
         change (removed ([?a] ++ ?l)) with (removed l).
         destruct (build_steps_in_order h args fs) as [_ [_ [_ [_ ->]]]].
         split; [discriminate | intros [_ [H _]]; discriminate H]. }
    unfold path_exists.
    destruct (lookup build_dir fs) as [[| es] |]; cbn [trace_of snd removed flat_map app].
    + split; [discriminate | intros [_ [_ [es H]]]; discriminate H].
    + unfold after. cbn [trace_of snd].
      change (removed ([?a; ?b; EvRmtree build_dir] ++ ?l)) with (build_dir :: removed l).
      destruct (build_steps_in_order h args (remove build_dir fs))
        as [_ [_ [_ [_ ->]]]].
      split; eauto.
    + unfold after. cbn [trace_of snd].
      change (removed ([?a] ++ ?l)) with (removed l).
      destruct (build_steps_in_order h args fs) as [_ [_ [_ [_ ->]]]].
      split; [discriminate | intros [_ [_ [es H]]]; discriminate H].
  - destruct (forallb _ deps_linux).
    2: { cbn [trace_of snd].
         change (removed (EvPrint "Building for Linux..." :: ?l)) with (removed l).
         rewrite (proj2 (check_dependencies_quiet h deps_linux fs)). now left. }
    destruct (andb (clean args) (path_exists build_dir fs)).
    2: { unfold after. cbn [trace_of snd].
         change (removed ([?a] ++ ?l)) with (removed l).
         destruct (build_steps_in_order h args fs) as [_ [_ [_ [_ ->]]]].
         now left. }
    destruct (lookup build_dir fs) as [[| es] |]; [now left | | now left].
    unfold after. cbn [trace_of snd].
    change (removed ([?a; ?b; EvRmtree build_dir] ++ ?l)) with (build_dir :: removed l).
    destruct (build_steps_in_order h args (remove build_dir fs))
      as [_ [_ [_ [_ ->]]]].
    now right.
  - exact Hsees.
Qed.

(** X7: the configure command carries [-Dprofile=development] exactly when
    the profile is [development]; it always starts with [meson setup] on
    the build directory, followed by the build type and the prefix. *)
Theorem meson_args_development_flag (args : Args) :
  (In "-Dprofile=development" (meson_args args) <->
   profile args = "development")
  /\ firstn 5 (meson_args args)
     = ["meson"; "setup"; "_build_linux";
        ("--buildtype=" ++ buildtype args)%string;
        ("--prefix=" ++ prefix args)%string]
  /\ (profile args <> "development" -> length (meson_args args) = 5).
Proof.
  unfold meson_args.
  destruct (String.eqb (profile args) "development") eqn:E.
  - apply String.eqb_eq in E. repeat split; try easy.
    intros _. cbn. auto 10.
  - apply String.eqb_neq in E. repeat split; try easy.
    intros H. cbn in H.
    destruct H as [H | [H | [H | [H | [H | []]]]]]; discriminate H.
Qed.

(** Split a membership in an explicit list into its cases. *)
Ltac in_cases H :=
  repeat match type of H with
         | _ \/ _ => destruct H as [H | H]
         | False => destruct H
         end.

(** *** Script-driven pipeline *)

(** The whole of [build_windows]. *)
Lemma build_windows_run h args fs :
  build_windows h args fs =
    let head := EvPrint "Building for Windows..." in
    let cmd := ps_command args in
    if msys2 h then
      if path_exists ps_script fs then
        match spawn h cmd true fs with
        | (Some c, s1) =>
            if negb (Z.eqb c 0) then
              (Raise (SystemExit 1), s1,
               head :: started cmd true fs ++ [EvPrintError cmd c])
            else
              (Ret true, s1,
               head :: started cmd true fs
                 ++ [EvPrint "Windows build completed successfully!"])
        | (None, s1) =>
            (Raise (OSError "FileNotFoundError"), s1, head :: started cmd true fs)
        end
      else (Ret false, fs, [head; EvPrint "build_windows.ps1 not found!"])
    else
      (Ret false, fs,
       [head; EvPrint "MSYS2 not found at C:/msys64";
        EvPrint "Please install MSYS2 from https://www.msys2.org/"]).
Proof.
  cbn zeta.
  unfold build_windows, check_dependencies_windows, bind, print, emit,
    exists_, ret, started.
  destruct (msys2 h); cbn [negb]; [| reflexivity].
  destruct (path_exists ps_script fs); cbn [negb]; [| reflexivity].
  change (["powershell"; "-ExecutionPolicy"; "Bypass"; "-File"; path_str ps_script;
           "-Profile"; buildtype args]
          ++ (if clean args then ["-Clean"] else [])
          ++ (if install args then ["-Install"] else []))
    with (ps_command args).
  destruct (spawn h (ps_command args) true fs) as [[c |] s1] eqn:E.
  - rewrite (run_command_run _ _ _ _ _ _ _ E). cbn [andb].
    destruct (negb (Z.eqb c 0)); reflexivity.
  - rewrite (run_command_not_started _ _ _ _ _ _ E). reflexivity.
Qed.

(** X8: without MSYS2, or with MSYS2 but without [build_windows.ps1],
    [build_windows] names the missing prerequisite and returns false: no
    process is started and the tree is untouched.  MSYS2 is looked for
    first: when it is missing the script is not even looked for. *)
Theorem build_windows_prerequisites (h : Host) (args : Args) (fs : node) :
  msys2 h = false \/ path_exists ps_script fs = false ->
  let run := build_windows h args fs in
  result_of run = Ret false
  /\ state_of run = fs
  /\ spawned (trace_of run) = []
  /\ (msys2 h = false ->
      trace_of run
      = [EvPrint "Building for Windows...";
         EvPrint "MSYS2 not found at C:/msys64";
         EvPrint "Please install MSYS2 from https://www.msys2.org/"])
  /\ (msys2 h = true ->
      trace_of run
      = [EvPrint "Building for Windows...";
         EvPrint "build_windows.ps1 not found!"]).
Proof.
  intros H run. unfold run. rewrite build_windows_run. cbn zeta.
  destruct (msys2 h).
  - destruct H as [H | H]; [discriminate H |]. rewrite H.
    repeat split; intros; try discriminate; reflexivity.
  - repeat split; intros; try discriminate; reflexivity.
Qed.

Lemma build_windows_prerequisites_witness :
  result_of (build_windows (windows_host 0) (args_for "windows" false) (Dir []))
  = Ret false.
Proof.
  exact (proj1
    (build_windows_prerequisites (windows_host 0) (args_for "windows" false)
       (Dir []) (or_intror eq_refl))).
Defined.

(** X9: with MSYS2 and the script in place, [build_windows] starts exactly
    one process, through the shell and in the tree as found: PowerShell on
    the script with the build type as profile, [-Clean] exactly when
    [clean] is set and [-Install] exactly when [install] is set.  The
    function itself removes nothing, and it returns true exactly when the
    script returned 0. *)
Theorem build_windows_forwards_flags (h : Host) (args : Args) (fs : node) :
  msys2 h = true ->
  path_exists ps_script fs = true ->
  buildtype args = "release" \/ buildtype args = "debug" ->
  let run := build_windows h args fs in
  (forall cmd shell snap,
      In (EvSpawn cmd shell snap) (trace_of run) <->
      cmd = ps_command args /\ shell = true /\ snap = fs)
  /\ spawned (trace_of run) = [ps_command args]
  /\ firstn 7 (ps_command args)
     = ["powershell"; "-ExecutionPolicy"; "Bypass"; "-File";
        "build_windows.ps1"; "-Profile"; buildtype args]
  /\ (In "-Clean" (ps_command args) <-> clean args = true)
  /\ (In "-Install" (ps_command args) <-> install args = true)
  /\ removed (trace_of run) = []
  /\ (result_of run = Ret true <->
      exists s1, spawn h (ps_command args) true fs = (Some 0%Z, s1)).
Proof.
  intros Hm Hs Hb run. unfold run. rewrite build_windows_run. cbn zeta.
  rewrite Hm, Hs. unfold started.
  assert (Hflags : (In "-Clean" (ps_command args) <-> clean args = true)
                   /\ (In "-Install" (ps_command args) <-> install args = true)).
  { unfold ps_command.
    destruct Hb as [-> | ->]; destruct (clean args), (install args);
      cbn [app In]; intuition (try discriminate). }
  destruct Hflags as [Hclean Hinstall].
  destruct (spawn h (ps_command args) true fs) as [[c |] s1] eqn:E;
    [destruct (Z.eqb_spec c 0) as [-> | Hc]; cbn [negb] |];
    cbn [result_of trace_of fst snd app spawned removed flat_map];
    (split; [intros cmd shell snap; cbn [In]; split;
             [intros H; in_cases H; try discriminate H;
              injection H as <- <- <-; auto
             | intros [-> [-> ->]]; auto] |]);
    (split; [reflexivity |]); (split; [reflexivity |]);
    (split; [exact Hclean |]); (split; [exact Hinstall |]);
    (split; [reflexivity |]);
    (split; [intros H; first [discriminate H | eauto]
            | intros [s H]; first [discriminate H | injection H; congruence | reflexivity]]).
Qed.

Lemma build_windows_forwards_flags_witness :
  spawned
    (trace_of
       (build_windows (windows_host 0) (args_for "windows" true)
          (Dir [("build_windows.ps1", File)])))
  = [ps_command (args_for "windows" true)].
Proof.
  exact (proj1 (proj2
    (build_windows_forwards_flags (windows_host 0) (args_for "windows" true)
       (Dir [("build_windows.ps1", File)]) eq_refl eq_refl (or_introl eq_refl)))).
Defined.

(** *** Sandbox packager *)

Lemma flatpak_steps_run h s0 :
  flatpak_steps h s0 =
    match spawn h flatpak_cmd false s0 with
    | (Some c, s1) =>
        if negb (Z.eqb c 0) then
          (Raise (SystemExit 1), s1,
           started flatpak_cmd false s0 ++ [EvPrintError flatpak_cmd c])
        else
          (Ret true, s1,
           started flatpak_cmd false s0
             ++ [EvPrint "Flatpak package created successfully!"])
    | (None, s1) =>
        (Raise (OSError "FileNotFoundError"), s1, started flatpak_cmd false s0)
    end.
Proof.
  unfold flatpak_steps, started, bind, print, emit, ret.
  destruct (spawn h flatpak_cmd false s0) as [[c |] s1] eqn:E.
  - rewrite (run_command_run _ _ _ _ _ _ _ E). cbn [andb].
    destruct (negb (Z.eqb c 0)); reflexivity.
  - rewrite (run_command_not_started _ _ _ _ _ _ E). reflexivity.
Qed.

Lemma flatpak_steps_facts h s0 :
  let run := flatpak_steps h s0 in
  (forall cmd shell snap,
      In (EvSpawn cmd shell snap) (trace_of run) ->
      cmd = flatpak_cmd /\ shell = false /\ snap = s0)
  /\ spawned (trace_of run) = [flatpak_cmd]
  /\ removed (trace_of run) = []
  /\ (result_of run = Ret true <->
      exists s1, spawn h flatpak_cmd false s0 = (Some 0%Z, s1)).
Proof.
  cbn zeta. rewrite flatpak_steps_run. unfold started.
  destruct (spawn h flatpak_cmd false s0) as [[c |] s1] eqn:E;
    [destruct (Z.eqb_spec c 0) as [-> | Hc]; cbn [negb] |];
    cbn [result_of state_of trace_of fst snd spawned removed flat_map app In];
    (split; [intros cmd shell snap H; in_cases H; try discriminate H;
             injection H as <- <- <-; auto |]);
    (split; [reflexivity |]); (split; [reflexivity |]);
    (split; [intros H; first [discriminate H | eauto]
            | intros [s H];
              first [discriminate H | injection H; congruence | reflexivity]]).
Qed.

(** The whole of [create_flatpak]. *)
Lemma create_flatpak_run h args fs :
  create_flatpak h args fs =
    let head := EvPrint "Creating Flatpak package..." in
    if path_exists manifest fs then
      if andb (clean args) (path_exists flatpak_dir fs) then
        match lookup flatpak_dir fs with
        | Some (Dir _) =>
            after [head; EvRmtree flatpak_dir]
              (flatpak_steps h (remove flatpak_dir fs))
        | Some File => (Raise (OSError "NotADirectoryError"), fs, [head])
        | None => (Raise (OSError "FileNotFoundError"), fs, [head])
        end
      else after [head] (flatpak_steps h fs)
    else (Ret false, fs, [head; EvPrint "Flatpak manifest not found!"]).
Proof.
  cbn zeta.
  change (create_flatpak h args fs) with
    ((print "Creating Flatpak package..." ;;
      found <- exists_ manifest ;;
      if negb found then
        print "Flatpak manifest not found!" ;; ret false
      else
      present <- (if clean args then exists_ flatpak_dir else ret false) ;;
      (if present then rmtree flatpak_dir else ret tt) ;;
      flatpak_steps h) fs).
  unfold print at 1. rewrite bind_emit_after.
  rewrite (bind_ret_after _ _ fs (path_exists manifest fs) fs [] eq_refl).
  rewrite after_after. cbn [app].
  destruct (path_exists manifest fs); cbn [negb]; [| reflexivity].
  destruct (clean args); cbn [andb].
  2: { rewrite (bind_ret_after _ _ fs false fs [] eq_refl).
       rewrite (bind_ret_after _ _ fs tt fs [] eq_refl).
       now rewrite !after_after. }
  rewrite (bind_ret_after _ _ fs (path_exists flatpak_dir fs) fs [] eq_refl).
  rewrite after_after. cbn [app].
  destruct (path_exists flatpak_dir fs) eqn:Hex.
  2: { rewrite (bind_ret_after _ _ fs tt fs [] eq_refl).
       now rewrite !after_after. }
  unfold path_exists in Hex.
  destruct (lookup flatpak_dir fs) as [[| es] |] eqn:L; [| | discriminate Hex].
  - assert (R : rmtree flatpak_dir fs
                = (Raise (OSError "NotADirectoryError"), fs, []))
      by (unfold rmtree; now rewrite L).
    rewrite (bind_raise_run _ _ _ _ _ _ R). reflexivity.
  - assert (R : rmtree flatpak_dir fs
                = (Ret tt, remove flatpak_dir fs, [EvRmtree flatpak_dir]))
      by (unfold rmtree; now rewrite L).
    rewrite (bind_ret_after _ _ _ _ _ _ R). now rewrite after_after.
Qed.

(** X10: without the manifest [create_flatpak] says so and returns false:
    no process is started, nothing is removed (even with [clean] set) and
    the tree is untouched. *)
Theorem create_flatpak_without_manifest (h : Host) (args : Args) (fs : node) :
  path_exists manifest fs = false ->
  create_flatpak h args fs
  = (Ret false, fs,
     [EvPrint "Creating Flatpak package..."; EvPrint "Flatpak manifest not found!"])
  /\ spawned (trace_of (create_flatpak h args fs)) = []
  /\ removed (trace_of (create_flatpak h args fs)) = [].
Proof.
  intros H. rewrite create_flatpak_run. cbn zeta. rewrite H. repeat split.
Qed.

Lemma create_flatpak_without_manifest_witness :
  result_of
    (create_flatpak (linux_host 0) (args_for "flatpak" true)
       (Dir [("_flatpak_build", Dir [])]))
  = Ret false.
Proof.
  exact (f_equal result_of (proj1
    (create_flatpak_without_manifest (linux_host 0) (args_for "flatpak" true)
       (Dir [("_flatpak_build", Dir [])]) eq_refl))).
Defined.

(** X11: with the manifest in place, [create_flatpak] starts at most one
    process, the flatpak builder, in the tree as found less the output
    directory when [clean] is set and it exists; it removes nothing else,
    the manifest is still there when the builder starts, and the result is
    true exactly when the builder was started and returned 0. *)
Theorem create_flatpak_builds_in_cleaned_tree (h : Host) (args : Args) (fs : node) :
  path_exists manifest fs = true ->
  let run := create_flatpak h args fs in
  let s0 := flatpak_cleaned args fs in
  (forall cmd shell snap,
      In (EvSpawn cmd shell snap) (trace_of run) ->
      cmd = flatpak_cmd /\ shell = false /\ snap = s0
      /\ path_exists manifest snap = true)
  /\ (spawned (trace_of run) = [] \/ spawned (trace_of run) = [flatpak_cmd])
  /\ (removed (trace_of run) = [] \/ removed (trace_of run) = [flatpak_dir])
  /\ (removed (trace_of run) = [flatpak_dir] ->
      clean args = true /\ path_exists flatpak_dir fs = true)
  /\ (clean args = true -> path_exists flatpak_dir s0 = false
                            \/ lookup flatpak_dir fs = Some File)
  /\ (result_of run = Ret true <->
      spawned (trace_of run) = [flatpak_cmd]
      /\ exists s1, spawn h flatpak_cmd false s0 = (Some 0%Z, s1)).
Proof.
  intros Hm run s0.
  assert (Hkeep : path_exists manifest s0 = true).
  { unfold s0, flatpak_cleaned.
    destruct (andb (clean args) (path_exists flatpak_dir fs)); [| exact Hm].
    unfold path_exists, manifest, flatpak_dir in *.
    destruct fs as [| es]; [discriminate Hm |]. cbn in *.
    rewrite entry_drop_other by discriminate. exact Hm. }
  assert (Hgone : path_exists flatpak_dir (remove flatpak_dir fs) = false).
  { unfold path_exists, flatpak_dir. now rewrite lookup_remove_top. }
  destruct (flatpak_steps_facts h s0) as [Fsp [Fl [Frm Fres]]].
  assert (Shape :
    (clean args = true /\ lookup flatpak_dir fs = Some File
     /\ run = (Raise (OSError "NotADirectoryError"), fs,
               [EvPrint "Creating Flatpak package..."]))
    \/ (run = after [EvPrint "Creating Flatpak package..."] (flatpak_steps h s0)
        /\ (clean args = true -> path_exists flatpak_dir s0 = false))
    \/ (clean args = true /\ path_exists flatpak_dir fs = true
        /\ path_exists flatpak_dir s0 = false
        /\ run = after [EvPrint "Creating Flatpak package...";
                        EvRmtree flatpak_dir] (flatpak_steps h s0))).
  { unfold run, s0, flatpak_cleaned. rewrite create_flatpak_run. cbn zeta.
    rewrite Hm. destruct (clean args); cbn [andb].
    - destruct (path_exists flatpak_dir fs) eqn:Hex.
      + unfold path_exists in Hex.
        destruct (lookup flatpak_dir fs) as [[| es] |]; [| | discriminate Hex];
          auto 10.
      + right. left. split; [reflexivity | intros _; exact Hex].
    - right. left. split; [reflexivity | intros H; discriminate H]. }
  destruct Shape as [[Hc [L ->]] | [[-> Hs] | [Hc [Hex [Hs ->]]]]];
    unfold after;
    cbn [result_of state_of trace_of fst snd app spawned removed flat_map];
    fold (spawned (trace_of (flatpak_steps h s0)));
    fold (removed (trace_of (flatpak_steps h s0)));
    rewrite ?Fl, ?Frm.
  - split; [intros cmd shell snap [H | []]; discriminate H |].
    split; [now left |]. split; [now left |].
    split; [intros H; discriminate H |].
    split; [intros _; now right |].
    split; [intros H; discriminate H | intros [H _]; discriminate H].
  - split.
    { intros cmd shell snap [H | H]; [discriminate H |].
      destruct (Fsp _ _ _ H) as [-> [-> ->]]. auto. }
    split; [now right |]. split; [now left |].
    split; [intros H; discriminate H |].
    split; [intros H; left; now apply Hs |].
    rewrite Fres. split; [intros H; now split | intros [_ H]; exact H].
  - split.
    { intros cmd shell snap [H | [H | H]]; [discriminate H | discriminate H |].
      destruct (Fsp _ _ _ H) as [-> [-> ->]]. auto. }
    split; [now right |]. split; [now right |].
    split; [intros _; now split |].
    split; [intros _; now left |].
    rewrite Fres. split; [intros H; now split | intros [_ H]; exact H].
Qed.

Lemma create_flatpak_builds_in_cleaned_tree_witness :
  result_of (create_flatpak (linux_host 0) (args_for "flatpak" true) sample_tree)
  = Ret true.
Proof.
  exact (proj2 (proj2 (proj2 (proj2 (proj2 (proj2
    (create_flatpak_builds_in_cleaned_tree (linux_host 0)
       (args_for "flatpak" true) sample_tree eq_refl))))))
    (conj eq_refl (ex_intro _ sample_tree eq_refl))).
Defined.

(** *** Distribution packager *)

Lemma entry_put_same x c es : entry x (put_entry x c es) = Some c.
Proof.
  induction es as [| [y n] es IH]; cbn [put_entry entry].
  - now rewrite String.eqb_refl.
  - destruct (String.eqb y x) eqn:E; cbn [entry]; now rewrite E.
Qed.

(** What is placed in a directory of the tree is found there. *)
Lemma lookup_place_in_dir a b c n es :
  lookup [a] n = Some (Dir es) -> lookup [a; b] (place [a; b] c n) = Some c.
Proof.
  intros L. destruct n as [| es0]; [discriminate L |].
  cbn in L. cbn [place]. destruct (entry a es0) as [d |]; [| discriminate L].
  injection L as ->. cbn [place lookup].
  rewrite entry_put_same. now rewrite entry_put_same.
Qed.

(** A successful archive step has opened the archive, and the archive file
    is in the tree it leaves. *)
Lemma write_archive_creates fs :
  result_of (write_archive fs) = Ret tt ->
  lookup zip_path (state_of (write_archive fs)) = Some File
  /\ In (EvZipOpen zip_path) (trace_of (write_archive fs)).
Proof.
  remember (write_archive fs) as w eqn:W. unfold write_archive in W.
  unfold bind at 1 in W.
  destruct (mkdir_exist_ok (parent zip_path) fs) as [[[[] | e] s1] t1];
    [| subst w; intros H; discriminate H].
  unfold bind at 1, print, emit in W. unfold bind at 1 in W.
  unfold zip_open in W.
  assert (Hok : forall es,
             lookup (parent zip_path) s1 = Some (Dir es) ->
             w = after (t1 ++ [EvPrint "Creating portable ZIP archive...";
                               EvZipOpen zip_path])
                   (for_each
                      (walk portable_dir
                         match lookup portable_dir (place zip_path File s1) with
                         | Some n => n
                         | None => File
                         end)
                      (fun '(root, _, files) =>
                         for_each files (fun file => archive_file root file))
                      (place zip_path File s1)) ->
             result_of w = Ret tt ->
             lookup zip_path (state_of w) = Some File
             /\ In (EvZipOpen zip_path) (trace_of w)).
  { intros es L -> _. rewrite archive_loop_run. unfold after.
    cbn [result_of state_of trace_of fst snd]. split.
    - now apply (lookup_place_in_dir "dist" _ File s1 es).
    - apply in_or_app. left. apply in_or_app. right. right. now left. }
  destruct (lookup zip_path s1) as [[| es] |];
    [| subst w; intros H; discriminate H |];
    (destruct (lookup (parent zip_path) s1) as [[| es'] |] eqn:L;
     [subst w; intros H; discriminate H
     | apply (Hok es' eq_refl); subst w; unfold after;
       match goal with
       | |- context [for_each ?l ?b ?s] => destruct (for_each l b s) as [[r s2] t2]
       end; cbn; now rewrite <- app_assoc
     | subst w; intros H; discriminate H]).
Qed.

(** X12: the packager tests that the portable path exists, not that it is
    a directory.  When it is a regular file, or a directory holding no file
    at any depth, the archive is created with no entry, and without the
    installer tool the packager still returns true. *)
Theorem package_windows_empty_archive (h : Host) (args : Args) (fs top : node) :
  lookup portable_dir fs = Some top ->
  (forall p, ~ has_file p top) ->
  result_of (write_archive fs) = Ret tt ->
  let run := package_windows h args fs in
  zip_names (trace_of run) = []
  /\ lookup zip_path (state_of (write_archive fs)) = Some File
  /\ (resolvable h "iscc" = false ->
      result_of run = Ret true
      /\ lookup zip_path (state_of run) = Some File).
Proof.
  intros L Hnone H run.
  assert (Hex : path_exists portable_dir fs = true)
    by (unfold path_exists; now rewrite L).
  destruct (write_archive_creates fs H) as [Hzip _].
  split; [| split; [exact Hzip |]].
  - unfold run. rewrite (package_windows_zip_names h args fs top L H).
    destruct (zip_names _) as [| name names] eqn:E; [reflexivity |].
    assert (Hin : In name (zip_names
                             (flat_map triple_writes (walk portable_dir top))))
      by (rewrite E; now left).
    apply in_zip_names in Hin. destruct Hin as [file Hw].
    apply walk_writes in Hw. destruct Hw as [p [Hp _]].
    now destruct (Hnone p).
  - intros Hr. unfold run.
    destruct (write_archive fs) as [[r s1] ta] eqn:W.
    cbn [result_of fst] in H. subst r.
    rewrite (package_windows_run h args fs s1 ta Hex W). cbn zeta.
    cbn [state_of fst snd] in Hzip.
    unfold resolvable in Hr.
    destruct (which h "iscc") as [inno |]; [| now split].
    destruct (negb (String.eqb inno EmptyString)); [discriminate Hr | now split].
Qed.

Lemma package_windows_empty_archive_witness :
  zip_names
    (trace_of
       (package_windows (windows_host 0) (args_for "package-windows" false)
          (Dir [("amberol-windows-portable", File)])))
  = [].
Proof.
  apply (fun H => proj1
    (package_windows_empty_archive (windows_host 0)
       (args_for "package-windows" false)
       (Dir [("amberol-windows-portable", File)]) File eq_refl H eq_refl)).
  intros p Hp. inversion Hp.
Defined.

(** X13: the installer is started only after the archive is complete: the
    tree it finds holds the archive file, and every archive entry of the
    run was written before it started. *)
Theorem package_windows_installer_after_archive (h : Host) (args : Args)
        (fs : node) :
  path_exists portable_dir fs = true ->
  result_of (write_archive fs) = Ret tt ->
  forall cmd shell snap,
    In (EvSpawn cmd shell snap) (trace_of (package_windows h args fs)) ->
    snap = state_of (write_archive fs)
    /\ lookup zip_path snap = Some File
    /\ exists pre post,
        trace_of (package_windows h args fs) = pre ++ EvSpawn cmd shell snap :: post
        /\ zip_names pre = zip_names (trace_of (package_windows h args fs)).
Proof.
  intros Hex H cmd shell snap.
  destruct (write_archive_creates fs H) as [Hzip _].
  destruct (write_archive_cases fs) as [[s1' [pre [W' [_ [Hsp _]]]]] | [e [s1' [t W']]]];
    [| rewrite W' in H; discriminate H].
  assert (Hta : spawned (trace_of (write_archive fs)) = []).
  { rewrite W'. cbn [trace_of snd].
    now rewrite spawned_app, Hsp, spawned_triple_writes. }
  clear W' Hsp pre s1'.
  destruct (write_archive fs) as [[r s1] ta] eqn:W.
  cbn [result_of state_of trace_of fst snd] in *. subst r.
  rewrite (package_windows_run h args fs s1 ta Hex W). cbn zeta.
  assert (Hno : forall l, In (EvSpawn cmd shell snap) (ta ++ l) ->
                          In (EvSpawn cmd shell snap) l).
  { intros l Hin. apply in_app_or in Hin. destruct Hin as [Hin | Hin]; [| exact Hin].
    exfalso. assert (Hc : In cmd (spawned ta)).
    { unfold spawned. apply in_flat_map. exists (EvSpawn cmd shell snap).
      split; [exact Hin | now left]. }
    rewrite Hta in Hc. destruct Hc. }
  destruct (which h "iscc") as [inno |].
  2: { cbn [trace_of snd]. intros [Hin | Hin]; [discriminate Hin |].
       apply Hno in Hin. cbn [In] in Hin. in_cases Hin; discriminate Hin. }
  destruct (negb (String.eqb inno EmptyString)).
  2: { cbn [trace_of snd]. intros [Hin | Hin]; [discriminate Hin |].
       apply Hno in Hin. cbn [In] in Hin. in_cases Hin; discriminate Hin. }
  destruct (path_exists iss_file s1).
  2: { cbn [trace_of snd]. intros [Hin | Hin]; [discriminate Hin |].
       apply Hno in Hin. cbn [In] in Hin. in_cases Hin; discriminate Hin. }
  destruct (spawn h [inno; path_str iss_file] false s1) as [[c |] s2];
    [destruct (Z.eqb c 0) |];
    cbn [trace_of snd]; (intros [Hin | Hin]; [discriminate Hin |]);
    apply Hno in Hin; cbn [app In] in Hin; in_cases Hin; try discriminate Hin;
    injection Hin as <- <- <-;
    (split; [reflexivity |]); (split; [exact Hzip |]);
    eexists (_ :: ta ++ [_; _]), _;
    (split; [cbn [app]; rewrite <- app_assoc; cbn [app]; reflexivity |]);
    change (?e :: ta ++ ?l) with ([e] ++ ta ++ l);
    rewrite !zip_names_app; cbn [zip_names flat_map app];
    now rewrite ?app_nil_r.
Qed.

Lemma package_windows_installer_after_archive_witness :
  lookup zip_path
    (state_of (write_archive sample_tree)) = Some File.
Proof.
  exact (proj1 (proj2
    (package_windows_installer_after_archive (linux_host 0)
       (args_for "package-windows" false) sample_tree eq_refl eq_refl
       ["/usr/bin/iscc"; "amberol-installer.iss"] false
       (state_of (write_archive sample_tree))
       ltac:(vm_compute; do 8 right; left; reflexivity)))).
Defined.

(** X14: when [dist] exists as a regular file, creating the output
    directory raises [FileExistsError], which nothing catches: the packager
    stops after its first line, no archive is opened, no process is started
    and the tree is untouched. *)
Theorem package_windows_dist_is_a_file (h : Host) (args : Args) (fs : node) :
  path_exists portable_dir fs = true ->
  lookup (parent zip_path) fs = Some File ->
  package_windows h args fs
  = (Raise (OSError "FileExistsError"), fs,
     [EvPrint "Packaging Windows distribution..."])
  /\ exit_code (result_of (package_windows h args fs)) = 1%Z.
Proof.
  intros Hex L.
  assert (R : package_windows h args fs
              = (Raise (OSError "FileExistsError"), fs,
                 [EvPrint "Packaging Windows distribution..."])).
  { unfold package_windows, bind, print, emit, exists_.
    rewrite Hex. cbn [negb].
    unfold write_archive, bind, mkdir_exist_ok. rewrite L. reflexivity. }
  rewrite R. now split.
Qed.

Lemma package_windows_dist_is_a_file_witness :
  exit_code
    (result_of
       (package_windows (linux_host 0) (args_for "package-windows" false)
          (Dir [("dist", File); ("amberol-windows-portable", Dir [])])))
  = 1%Z.
Proof.
  exact (proj2
    (package_windows_dist_is_a_file (linux_host 0)
       (args_for "package-windows" false)
       (Dir [("dist", File); ("amberol-windows-portable", Dir [])])
       eq_refl eq_refl)).
Defined.

(** *** Target dispatch and the entry point *)

(** X15: on a host detected as windows, target [windows] runs exactly the
    script-driven pipeline, and target [all] runs the native pipeline and
    then the script-driven one in the tree the first left.  The second runs
    whatever the first returned, the result is the conjunction of the two,
    and an abort of the first skips the second. *)
Theorem dispatch_on_windows (h : Host) (args : Args) (fs : node) :
  (target args = "windows" ->
   dispatch h args "windows" fs = build_windows h args fs)
  /\ (target args = "all" ->
      (forall r1 fs1 t1,
          build_linux h args fs = (Ret r1, fs1, t1) ->
          dispatch h args "windows" fs
          = match build_windows h args fs1 with
            | (Ret r2, fs2, t2) => (Ret (andb r1 r2), fs2, t1 ++ t2)
            | (Raise e, fs2, t2) => (Raise e, fs2, t1 ++ t2)
            end)
      /\ (forall e fs1 t1,
             build_linux h args fs = (Raise e, fs1, t1) ->
             dispatch h args "windows" fs = (Raise e, fs1, t1))).
Proof.
  split; [| intros Ht0; split].
  - intros Ht. unfold dispatch. rewrite Ht.
    cbn [String.eqb Ascii.eqb Bool.eqb orb]. unfold bind, ret.
    destruct (build_windows h args fs) as [[[r | e] s1] t1]; cbn;
      now rewrite ?app_nil_r.
  - intros r1 fs1 t1 E. unfold dispatch. rewrite Ht0.
    cbn [String.eqb Ascii.eqb Bool.eqb orb]. unfold bind, ret. rewrite E.
    destruct (build_windows h args fs1) as [[[r2 | e] s2] t2]; cbn;
      now rewrite ?app_nil_r.
  - intros e fs1 t1 E. unfold dispatch. rewrite Ht0.
    cbn [String.eqb Ascii.eqb Bool.eqb orb]. unfold bind, ret. rewrite E.
    reflexivity.
Qed.

(** X16: target [flatpak] on a host detected as linux runs exactly the
    sandbox packager; on any other platform it prints the mismatch line and
    yields false without touching the tree, and the run ends with status 1
    and no process started. *)
Theorem dispatch_flatpak (h : Host) (args : Args) (p : string) (fs : node) :
  target args = "flatpak" ->
  (p = "linux" -> dispatch h args p fs = create_flatpak h args fs)
  /\ (p <> "linux" ->
      dispatch h args p fs
      = (Ret false, fs,
         [EvPrint "Flatpak packages can only be created on Linux"]))
  /\ (detect_platform h <> "linux" ->
      exit_code (result_of (main h args fs)) = 1%Z
      /\ spawned (trace_of (main h args fs)) = []
      /\ state_of (main h args fs) = fs).
Proof.
  intros Ht.
  assert (Hoff : forall q, q <> "linux" ->
             dispatch h args q fs
             = (Ret false, fs,
                [EvPrint "Flatpak packages can only be created on Linux"])).
  { intros q Hq. apply String.eqb_neq in Hq. unfold dispatch. rewrite Ht, Hq.
    reflexivity. }
  split; [| split].
  - intros ->. unfold dispatch. rewrite Ht.
    cbn [String.eqb Ascii.eqb Bool.eqb orb]. unfold bind, ret.
    destruct (create_flatpak h args fs) as [[[r | e] s1] t1]; cbn;
      now rewrite ?app_nil_r.
  - apply Hoff.
  - intros Hp. unfold main, bind, print, emit, sys_exit, raise.
    rewrite (Hoff _ Hp). repeat split.
Qed.

Lemma dispatch_flatpak_witness :
  dispatch (windows_host 0) (args_for "flatpak" false) "windows" sample_tree
  = (Ret false, sample_tree,
     [EvPrint "Flatpak packages can only be created on Linux"]).
Proof.
  exact (proj1 (proj2
    (dispatch_flatpak (windows_host 0) (args_for "flatpak" false) "windows"
       sample_tree eq_refl)) ltac:(discriminate)).
Defined.

(** X17: [main] ends with status 0 exactly when the dispatch returned true,
    and then its last line is the success banner; when the dispatch
    returned false its last line is the failure banner and it raises
    [SystemExit(1)]; when the dispatch was aborted, the abort is passed on
    and no banner is printed. *)
Theorem main_status_and_banner (h : Host) (args : Args) (fs : node) :
  let d := dispatch h args (detect_platform h) fs in
  let run := main h args fs in
  let opening :=
    [EvPrint ("Current platform: " ++ detect_platform h)%string;
     EvPrint ("Build target: " ++ target args)%string] in
  (exit_code (result_of run) = 0%Z <-> result_of d = Ret true)
  /\ (result_of d = Ret true ->
      run = (Ret tt, state_of d,
             opening ++ trace_of d
               ++ [EvPrint (nl ++ "Build process completed successfully!")%string]))
  /\ (result_of d = Ret false ->
      run = (Raise (SystemExit 1), state_of d,
             opening ++ trace_of d
               ++ [EvPrint (nl ++ "Build process failed!")%string]))
  /\ (forall e, result_of d = Raise e ->
                run = (Raise e, state_of d, opening ++ trace_of d)).
Proof.
  cbn zeta.
  destruct (dispatch_tame h args (detect_platform h) fs) as [Hexit _].
  unfold main, bind, print, emit, sys_exit, raise.
  destruct (dispatch h args (detect_platform h) fs) as [[[[] | e] s1] t1];
    cbn [result_of state_of trace_of fst snd app exit_code] in *.
  - repeat split; try easy; intros e H; discriminate H.
  - repeat split; try easy; intros e H; discriminate H.
  - split; [| split; [| split]]; try (intros H; discriminate H).
    + split; [| intros H; discriminate H].
      destruct e as [c | | |]; cbn in *; intros H; subst; discriminate.
    + intros e' H. injection H as <-. reflexivity.
Qed.

End CrossPlatformMore.

(** ** build_cross_platform.py: the archive of the distribution packager *)
Module CrossPlatformArchive.
Import CrossPlatform CrossPlatformFacts CrossPlatformMore.

Lemma no_zip_write_in t file name :
  forallb not_zip_write t = true -> ~ In (EvZipWrite file name) t.
Proof.
  intros H Hin. rewrite forallb_forall in H. specialize (H _ Hin).
  discriminate H.
Qed.

(** The trace of a successful archive step: the output directory is made
    when it is not there, the archive is opened, and then the entries of the
    walk are written, in the order of the walk. *)
Lemma write_archive_trace fs :
  result_of (write_archive fs) = Ret tt ->
  exists pre0,
    (pre0 = [] \/ pre0 = [EvMkdir (parent zip_path)])
    /\ trace_of (write_archive fs)
       = pre0
           ++ [EvPrint "Creating portable ZIP archive..."; EvZipOpen zip_path]
           ++ flat_map triple_writes
                (walk portable_dir
                   match lookup portable_dir fs with
                   | Some n => n
                   | None => File
                   end).
Proof.
  remember (write_archive fs) as w eqn:W. unfold write_archive in W.
  unfold bind at 1 in W.
  assert (Hstep : forall s1 pre0,
             (forall x p, x <> "dist" -> lookup (x :: p) s1 = lookup (x :: p) fs) ->
             pre0 = [] \/ pre0 = [EvMkdir (parent zip_path)] ->
             mkdir_exist_ok (parent zip_path) fs = (Ret tt, s1, pre0) ->
             result_of w = Ret tt ->
             exists pre0,
               (pre0 = [] \/ pre0 = [EvMkdir (parent zip_path)])
               /\ trace_of w
                  = pre0
                      ++ [EvPrint "Creating portable ZIP archive...";
                          EvZipOpen zip_path]
                      ++ flat_map triple_writes
                           (walk portable_dir
                              match lookup portable_dir fs with
                              | Some n => n
                              | None => File
                              end)).
  { intros s1 pre0 Hs1 Hpre E Hr. rewrite E in W.
    unfold bind at 1, print, emit in W. unfold bind at 1 in W.
    destruct (zip_open_cases zip_path s1) as [Z | [e Z]]; rewrite Z in W;
      [| subst w; discriminate Hr].
    rewrite archive_loop_run in W.
    assert (Hp : lookup portable_dir (place zip_path File s1)
                 = lookup portable_dir fs).
    { unfold portable_dir, zip_path.
      rewrite lookup_place_other by discriminate. apply Hs1. discriminate. }
    rewrite Hp in W. exists pre0. split; [exact Hpre |].
    subst w. cbn [trace_of snd app]. reflexivity. }
  destruct (mkdir_exist_ok_cases (parent zip_path) fs) as [E | [E | [e E]]].
  - apply (Hstep fs []); auto.
  - apply (Hstep (place (parent zip_path) (Dir []) fs)
                 [EvMkdir (parent zip_path)]); auto.
    intros x p Hx. cbn [parent zip_path removelast].
    now apply lookup_place_other.
  - rewrite E in W. subst w. intros H. discriminate H.
Qed.

(** C5: when the portable directory is there and the archive can be
    written, the packager produces the archive [dist/amberol-windows-portable.zip]
    and, once it is opened, writes into it the entries of the files below
    the portable directory, at any depth, in the order of the walk: each
    entry is written from the file itself and is named by the file's path
    relative to the directory's parent, that is the directory's own name,
    then the path below it, joined with ["/"].  So a file [a.txt] is written from
    [amberol-windows-portable/a.txt] under the name
    [amberol-windows-portable/a.txt], a file [sub/b.txt] from
    [amberol-windows-portable/sub/b.txt] under the name
    [amberol-windows-portable/sub/b.txt]; nothing else is written. *)
Theorem C5_archive_written_from_files_under_parent (h : Host) (args : Args)
        (fs top : node) :
  lookup portable_dir fs = Some top ->
  result_of (write_archive fs) = Ret tt ->
  let run := package_windows h args fs in
  (exists pre0 post,
      (pre0 = [] \/ pre0 = [EvMkdir (parent zip_path)])
      /\ forallb not_zip_write post = true
      /\ trace_of run
         = [EvPrint "Packaging Windows distribution..."]
             ++ pre0
             ++ [EvPrint "Creating portable ZIP archive..."; EvZipOpen zip_path]
             ++ flat_map triple_writes (walk portable_dir top)
             ++ post)
  /\ lookup zip_path (state_of (write_archive fs)) = Some File
  /\ (forall file name,
         In (EvZipWrite file name) (trace_of run) <->
         exists p, has_file p top
                   /\ file = portable_dir ++ p
                   /\ name = path_str (portable_dir ++ p))
  /\ (forall name,
         In name (zip_names (trace_of run)) <->
         exists p, has_file p top /\ name = path_str (portable_dir ++ p))
  /\ (has_file ["a.txt"] top ->
      In (EvZipWrite ["amberol-windows-portable"; "a.txt"]
            "amberol-windows-portable/a.txt") (trace_of run))
  /\ (has_file ["sub"; "b.txt"] top ->
      In (EvZipWrite ["amberol-windows-portable"; "sub"; "b.txt"]
            "amberol-windows-portable/sub/b.txt") (trace_of run)).
Proof.
  intros L H run.
  assert (Hex : path_exists portable_dir fs = true)
    by (unfold path_exists; now rewrite L).
  destruct (write_archive_creates fs H) as [Hzip _].
  destruct (write_archive_trace fs H) as [pre0 [Hpre0 Hta]]. rewrite L in Hta.
  destruct (write_archive fs) as [[r s1] ta] eqn:W.
  cbn [result_of state_of trace_of fst snd] in H, Hzip, Hta. subst r.
  destruct (package_windows_trace h args fs s1 ta Hex W) as [post [Ht Hpost]].
  fold run in Ht.
  assert (Hshape : trace_of run
                   = [EvPrint "Packaging Windows distribution..."]
                       ++ pre0
                       ++ [EvPrint "Creating portable ZIP archive...";
                           EvZipOpen zip_path]
                       ++ flat_map triple_writes (walk portable_dir top)
                       ++ post).
  { rewrite Ht, Hta. cbn [app]. now rewrite <- !app_assoc. }
  assert (Hev : forall file name,
             In (EvZipWrite file name) (trace_of run) <->
             exists p, has_file p top
                       /\ file = portable_dir ++ p
                       /\ name = path_str (portable_dir ++ p)).
  { intros file name. rewrite <- walk_writes, Hshape. split.
    - intros Hin.
      apply in_app_or in Hin. destruct Hin as [[Hin | []] | Hin];
        [discriminate Hin |].
      apply in_app_or in Hin. destruct Hin as [Hin | Hin].
      { destruct Hpre0 as [-> | ->]; [destruct Hin |].
        destruct Hin as [Hin | []]. discriminate Hin. }
      apply in_app_or in Hin. destruct Hin as [Hin | Hin].
      { destruct Hin as [Hin | [Hin | []]]; discriminate Hin. }
      apply in_app_or in Hin. destruct Hin as [Hin | Hin]; [exact Hin |].
      now destruct (no_zip_write_in post file name Hpost).
    - intros Hin. apply in_or_app. right. apply in_or_app. right.
      apply in_or_app. right. apply in_or_app. now left. }
  assert (Hnames : forall name,
             In name (zip_names (trace_of run)) <->
             exists p, has_file p top /\ name = path_str (portable_dir ++ p)).
  { intros name. rewrite in_zip_names. split.
    - intros [file Hin]. apply Hev in Hin. destruct Hin as [p [Hp [_ ->]]]. eauto.
    - intros [p [Hp ->]]. exists (portable_dir ++ p). apply Hev. eauto. }
  split; [exists pre0, post; auto |].
  split; [exact Hzip |]. split; [exact Hev |]. split; [exact Hnames |].
  split.
  - intros Ha. apply Hev. exists ["a.txt"]. auto.
  - intros Hb. apply Hev. exists ["sub"; "b.txt"]. auto.
Qed.

Lemma C5_archive_written_from_files_under_parent_witness :
  zip_names
    (trace_of (package_windows (linux_host 0) (args_for "package-windows" false)
                 sample_tree))
  = ["amberol-windows-portable/a.txt"; "amberol-windows-portable/sub/b.txt"]
  /\ In (EvZipWrite ["amberol-windows-portable"; "sub"; "b.txt"]
           "amberol-windows-portable/sub/b.txt")
        (trace_of (package_windows (linux_host 0)
                     (args_for "package-windows" false) sample_tree)).
Proof.
  split; [reflexivity |].
  apply (proj2 (proj2 (proj2 (proj2 (proj2
    (C5_archive_written_from_files_under_parent (linux_host 0)
       (args_for "package-windows" false) sample_tree
       (Dir [("a.txt", File); ("sub", Dir [("b.txt", File)])])
       eq_refl eq_refl)))))).
  apply has_file_below with (Dir [("b.txt", File)]).
  - right. now left.
  - constructor. now left.
Defined.

End CrossPlatformArchive.

(** ** build_cargo.py: further properties *)
Module CargoMore.
Import Cargo CargoFacts.

Section Driver.
Context {W : Type} (h : Host W) (args : Args).

(** The whole of [main]. *)
Lemma cargo_main_run (w : W) :
  main h args w =
    let cmd := cargo_cmd args in
    let out := output args in
    let src := src_exe h args in
    let head :=
      [EvPrint ("Running: " ++ join " " cmd)%string;
       EvSpawn cmd (cargo_home args)] in
    let copying :=
      [EvPrint ("Copying " ++ src ++ " to " ++ out)%string; EvCopy src out] in
    match spawn h cmd (cargo_home args) w with
    | (None, w1) => (Raise (OSError "FileNotFoundError"), w1, head)
    | (Some c, w1) =>
        if negb (Z.eqb c 0) then
          (Raise (SystemExit c), w1,
           head ++ [EvPrint ("Cargo build failed with exit code " ++ str_int c)%string])
        else
          match copy2 h src out w1 with
          | (Some what, w2) =>
              (Raise (SystemExit 1), w2,
               head ++ copying ++ [EvPrintCopyFailed (OSError what)])
          | (None, w2) =>
              if negb (String.eqb (os_name h) "nt") then
                match chmod h out 493 w2 with
                | (Some what, w3) =>
                    (Raise (SystemExit 1), w3,
                     head ++ copying
                       ++ [EvChmod out 493; EvPrintCopyFailed (OSError what)])
                | (None, w3) =>
                    (Ret tt, w3,
                     head ++ copying
                       ++ [EvChmod out 493; EvPrint "Build completed successfully!"])
                end
              else
                (Ret tt, w2,
                 head ++ copying ++ [EvPrint "Build completed successfully!"])
          end
    end.
Proof.
  cbn zeta.
  unfold main, bind, try_except, print, emit, subprocess_run, shutil_copy2,
    os_chmod, sys_exit, raise, ret, src_exe.
  destruct (spawn h (cargo_cmd args) (cargo_home args) w) as [[c |] w1];
    [| reflexivity].
  destruct (negb (Z.eqb c 0)); [reflexivity |].
  match goal with
  | |- context [copy2 h ?s ?d w1] => destruct (copy2 h s d w1) as [[what |] w2]
  end; [reflexivity |].
  destruct (negb (String.eqb (os_name h) "nt")); [| reflexivity].
  destruct (chmod h (output args) 493 w2) as [[what |] w3]; reflexivity.
Qed.

(** X18: the cargo driver returns normally, with status 0, exactly when
    cargo returned 0, the copy of the built executable succeeded and, off
    Windows, the mode change succeeded; it has then copied the executable
    once, to the output path, and printed the success line last. *)
Theorem cargo_main_succeeds_iff (w : W) :
  let run := main h args w in
  let ok :=
    exists w1 w2,
      spawn h (cargo_cmd args) (cargo_home args) w = (Some 0%Z, w1)
      /\ copy2 h (src_exe h args) (output args) w1 = (None, w2)
      /\ (os_name h = "nt"
          \/ exists w3, chmod h (output args) 493 w2 = (None, w3)) in
  (result_of run = Ret tt <-> ok)
  /\ (exit_code (result_of run) = 0%Z <-> ok)
  /\ (result_of run = Ret tt ->
      copies (trace_of run) = [(src_exe h args, output args)]
      /\ last (trace_of run) (EvPrint EmptyString)
         = EvPrint "Build completed successfully!").
Proof.
  cbn zeta. rewrite cargo_main_run. cbn zeta.
  destruct (spawn h (cargo_cmd args) (cargo_home args) w) as [[c |] w1] eqn:E1.
  2: { repeat split; try easy; intros [w1' [w2 [H _]]]; discriminate H. }
  destruct (Z.eqb_spec c 0) as [-> | Hc]; cbn [negb].
  2: { cbn [result_of fst exit_code].
       repeat split; try easy; try (intros [w1' [w2 [H _]]]; congruence). }
  destruct (copy2 h (src_exe h args) (output args) w1) as [[what |] w2] eqn:E2.
  { cbn [result_of fst exit_code].
    repeat split; try easy;
      intros [w1' [w2' [H1 [H2 _]]]]; injection H1 as <-; congruence. }
  destruct (String.eqb_spec (os_name h) "nt") as [Hnt | Hnt]; cbn [negb].
  { cbn [result_of trace_of fst snd exit_code app copies flat_map last].
    repeat split; try easy; intros _; exists w1, w2; auto. }
  destruct (chmod h (output args) 493 w2) as [[what |] w3] eqn:E3.
  - cbn [result_of fst exit_code].
    repeat split; try easy;
      intros [w1' [w2' [H1 [H2 [H3 | [w3' H3]]]]]]; try contradiction;
      injection H1 as <-; rewrite E2 in H2; injection H2 as <-; congruence.
  - cbn [result_of trace_of fst snd exit_code app copies flat_map last].
    repeat split; try easy; intros _; exists w1, w2; eauto.
Qed.

(** X19: when cargo returned 0 but the copy raises, the driver reports the
    failure and exits with status 1 without changing any mode; when the
    copy succeeds and the mode change raises (off Windows), it exits with
    status 1 as well, the copy being done. *)
Theorem cargo_copy_failure_exits_with_1 (w w1 : W) :
  spawn h (cargo_cmd args) (cargo_home args) w = (Some 0%Z, w1) ->
  let run := main h args w in
  (forall what w2,
      copy2 h (src_exe h args) (output args) w1 = (Some what, w2) ->
      result_of run = Raise (SystemExit 1)
      /\ state_of run = w2
      /\ chmods (trace_of run) = []
      /\ last (trace_of run) (EvPrint EmptyString)
         = EvPrintCopyFailed (OSError what))
  /\ (forall what w2 w3,
         copy2 h (src_exe h args) (output args) w1 = (None, w2) ->
         os_name h <> "nt" ->
         chmod h (output args) 493 w2 = (Some what, w3) ->
         result_of run = Raise (SystemExit 1)
         /\ state_of run = w3
         /\ copies (trace_of run) = [(src_exe h args, output args)]
         /\ last (trace_of run) (EvPrint EmptyString)
            = EvPrintCopyFailed (OSError what)).
Proof.
  intros E1 run. unfold run. rewrite cargo_main_run. cbn zeta. rewrite E1.
  cbn [Z.eqb negb]. split.
  - intros what w2 E2. rewrite E2. repeat split.
  - intros what w2 w3 E2 Hnt E3. rewrite E2.
    apply String.eqb_neq in Hnt. rewrite Hnt. cbn [negb]. rewrite E3.
    repeat split.
Qed.

(** X20: the driver copies and changes modes only after a successful build:
    every copy of a run is the one of the built executable to the output
    path and shows that cargo returned 0; every mode change is [0o755] on
    the output path, off Windows, after the copy succeeded.  On Windows no
    mode is ever changed. *)
Theorem cargo_copies_only_after_build (w : W) :
  let t := trace_of (main h args w) in
  (forall src dst,
      In (src, dst) (copies t) ->
      src = src_exe h args /\ dst = output args
      /\ exists w1, spawn h (cargo_cmd args) (cargo_home args) w = (Some 0%Z, w1))
  /\ (forall file mode,
         In (file, mode) (chmods t) ->
         file = output args /\ mode = 493%Z /\ os_name h <> "nt"
         /\ copies t = [(src_exe h args, output args)])
  /\ (os_name h = "nt" -> chmods t = []).
Proof.
  cbn zeta. rewrite cargo_main_run. cbn zeta.
  destruct (spawn h (cargo_cmd args) (cargo_home args) w) as [[c |] w1] eqn:E1.
  2: { cbn. repeat split; try easy. }
  destruct (Z.eqb_spec c 0) as [-> | Hc]; cbn [negb].
  2: { cbn [trace_of snd app copies chmods flat_map In].
       repeat split; try easy. }
  destruct (copy2 h (src_exe h args) (output args) w1) as [[what |] w2] eqn:E2.
  { cbn [trace_of snd app copies chmods flat_map In].
    split; [| split; [intros file mode [] | reflexivity]].
    intros src dst [H | []]. injection H as <- <-. eauto. }
  destruct (String.eqb_spec (os_name h) "nt") as [Hnt | Hnt]; cbn [negb].
  { cbn [trace_of snd app copies chmods flat_map In].
    split; [| split; [intros file mode [] | reflexivity]].
    intros src dst [H | []]. injection H as <- <-. eauto. }
  destruct (chmod h (output args) 493 w2) as [[what |] w3] eqn:E3;
    cbn [trace_of snd app copies chmods flat_map In];
    (split; [intros src dst [H | []]; injection H as <- <-; eauto |]);
    (split; [intros file mode [H | []]; injection H as <- <-; auto
            | intros H; contradiction]).
Qed.

(** X21: the driver ends with a normal return, with [SystemExit(1)], with
    an uncaught [OSError], or with [SystemExit(c)] for the non-zero code
    [c] cargo returned; the status the operating system reports is then 0,
    1, or the truncation of [c].  When cargo cannot be started the
    [OSError] is not caught, the status is 1 and nothing is copied. *)
Theorem cargo_exit_status (w : W) :
  let run := main h args w in
  (result_of run = Ret tt
   \/ result_of run = Raise (SystemExit 1)
   \/ (exists what, result_of run = Raise (OSError what))
   \/ exists c w1,
        spawn h (cargo_cmd args) (cargo_home args) w = (Some c, w1)
        /\ c <> 0%Z /\ result_of run = Raise (SystemExit c))
  /\ (forall nt,
         os_status nt (exit_code (result_of run)) = 0%Z
         \/ os_status nt (exit_code (result_of run)) = 1%Z
         \/ exists c w1,
              spawn h (cargo_cmd args) (cargo_home args) w = (Some c, w1)
              /\ c <> 0%Z
              /\ os_status nt (exit_code (result_of run)) = os_status nt c)
  /\ (forall w1,
         spawn h (cargo_cmd args) (cargo_home args) w = (None, w1) ->
         run = (Raise (OSError "FileNotFoundError"), w1,
                [EvPrint ("Running: " ++ join " " (cargo_cmd args))%string;
                 EvSpawn (cargo_cmd args) (cargo_home args)])
         /\ exit_code (result_of run) = 1%Z
         /\ copies (trace_of run) = []).
Proof.
  cbn zeta. rewrite cargo_main_run. cbn zeta.
  destruct (spawn h (cargo_cmd args) (cargo_home args) w) as [[c |] w1] eqn:E1.
  2: { split; [right; right; left; now exists "FileNotFoundError" |].
       split; [intros [|]; right; left; reflexivity |].
       intros w1' H. injection H as <-. repeat split. }
  destruct (Z.eqb_spec c 0) as [-> | Hc]; cbn [negb].
  2: { split; [right; right; right; exists c, w1; auto |].
       split; [| intros w1' H; discriminate H].
       intros nt. right. right. exists c, w1. auto. }
  destruct (copy2 h (src_exe h args) (output args) w1) as [[what |] w2].
  { split; [right; left; reflexivity |].
    split; [intros [|]; right; left; reflexivity | intros w1' H; discriminate H]. }
  destruct (negb (String.eqb (os_name h) "nt")).
  2: { split; [left; reflexivity |].
       split; [intros [|]; left; reflexivity | intros w1' H; discriminate H]. }
  destruct (chmod h (output args) 493 w2) as [[what |] w3].
  - split; [right; left; reflexivity |].
    split; [intros [|]; right; left; reflexivity | intros w1' H; discriminate H].
  - split; [left; reflexivity |].
    split; [intros [|]; left; reflexivity | intros w1' H; discriminate H].
Qed.

End Driver.

Lemma cargo_copy_failure_exits_with_1_witness :
  result_of (main posix_host_copy_fails (sample_args "release") [])
  = Raise (SystemExit 1).
Proof.
  exact (proj1
    (proj1 (cargo_copy_failure_exits_with_1 posix_host_copy_fails
              (sample_args "release") [] [] eq_refl)
       "No such file or directory" [] eq_refl)).
Defined.

Example cargo_on_windows :
  trace_of (main (nt_host 0) (sample_args "debug") [])
  = [EvPrint "Running: cargo build --manifest-path Cargo.toml --target-dir target";
     EvSpawn (cargo_cmd (sample_args "debug")) "/tmp/cargo";
     EvPrint ("Copying target" ++ String (ascii_of_nat 92) "debug"
              ++ String (ascii_of_nat 92) "amberol.exe to out/amberol")%string;
     EvCopy ("target" ++ String (ascii_of_nat 92) "debug"
             ++ String (ascii_of_nat 92) "amberol.exe")%string "out/amberol";
     EvPrint "Build completed successfully!"].
Proof. reflexivity. Qed.

End CargoMore.
